(** * Arnold Maps Linker: texture-channel resolution and the naming dictionary

    A shallow embedding of [AML_Tools/Link_Material.py] and of the add
    operation of [AML_Tools/Texture_name_manager.py].

    Conventions of the embedding.
    - Python strings are byte strings ([string] of the Standard Library):
      the strings of Python 2.7, or the UTF-8 encoding of the text of
      Python 3, on which the substring test and the cut at [/] are the same.
    - [Py.lower] and [re.IGNORECASE] fold the ASCII letters only, as they do
      on Python 2.7 byte strings and on text whose cased letters are ASCII.
      [validate_image_file_with] takes [str.lower] as a parameter and so
      covers every text; [validate_image_file] is its instance at [Py.lower].
    - [os.path] is [posixpath]: the separator is [/], there is no alternative
      separator.
    - The filesystem is a predicate [os_path_exists : string -> bool] that
      does not change during a call.
    - The host calls ([cmds.warning], the shading-node construction) are
      recorded as events in the order in which they happen. *)

From Stdlib Require Import ZArith Ascii.
From stdpp Require Import base list strings gmap.

Local Open Scope Z_scope.

(** ** Python string primitives *)

Module Py.

Definition newline : ascii := Ascii.ascii_of_nat 10.

(** [c.lower()] on one byte. *)
Definition lower_ascii (c : ascii) : ascii :=
  let n := Ascii.N_of_ascii c in
  if ((65 <=? n) && (n <=? 90))%N then Ascii.ascii_of_N (n + 32) else c.

(** [s.lower()]. *)
Fixpoint lower (s : string) : string :=
  match s with
  | EmptyString => EmptyString
  | String c s' => String (lower_ascii c) (lower s')
  end.

(** [s[:n]] for [0 <= n]. *)
Fixpoint take (n : nat) (s : string) : string :=
  match n, s with
  | O, _ => EmptyString
  | S _, EmptyString => EmptyString
  | S n', String c s' => String c (take n' s')
  end.

(** [s[n:]] for [0 <= n]. *)
Fixpoint drop (n : nat) (s : string) : string :=
  match n, s with
  | O, _ => s
  | S _, EmptyString => EmptyString
  | S n', String _ s' => drop n' s'
  end.

(** [s.startswith(t)]. *)
Fixpoint startswith (t s : string) : bool :=
  match t, s with
  | EmptyString, _ => true
  | String _ _, EmptyString => false
  | String a t', String b s' => if Ascii.eqb a b then startswith t' s' else false
  end.

(** [t in s] on strings: [t] occurs in [s] as a contiguous substring. *)
Fixpoint contains (t s : string) : bool :=
  if startswith t s then true
  else match s with
       | EmptyString => false
       | String _ s' => contains t s'
       end.

(** [s.rfind(c)] for a one-character [c]: the last index, or [-1]. *)
Fixpoint rfind_from (c : ascii) (s : string) (i acc : Z) : Z :=
  match s with
  | EmptyString => acc
  | String a s' => rfind_from c s' (i + 1) (if Ascii.eqb a c then i else acc)
  end.

Definition rfind (c : ascii) (s : string) : Z := rfind_from c s 0 (-1).

(** [s.split(c)] for a one-character separator. *)
Fixpoint split (c : ascii) (s : string) : list string :=
  match s with
  | EmptyString => [EmptyString]
  | String a s' =>
      if Ascii.eqb a c then EmptyString :: split c s'
      else match split c s' with
           | [] => [String a EmptyString]
           | w :: ws => String a w :: ws
           end
  end.

(** [sep.join(parts)]. *)
Fixpoint join (sep : string) (parts : list string) : string :=
  match parts with
  | [] => EmptyString
  | [w] => w
  | w :: ws => w +:+ sep +:+ join sep ws
  end.

(** [s.strip()]: the blanks of a byte string are the codes 9 to 13 and 32. *)
Definition is_space (c : ascii) : bool :=
  let n := Ascii.N_of_ascii c in
  (((9 <=? n) && (n <=? 13)) || (n =? 32))%N.

Fixpoint lstrip (s : string) : string :=
  match s with
  | EmptyString => EmptyString
  | String c s' => if is_space c then lstrip s' else s
  end.

Fixpoint rstrip (s : string) : string :=
  match s with
  | EmptyString => EmptyString
  | String c s' =>
      match rstrip s' with
      | EmptyString => if is_space c then EmptyString else String c EmptyString
      | r => String c r
      end
  end.

Definition strip (s : string) : string := rstrip (lstrip s).

End Py.

(** ** The [re] calls of the linker *)

Module Re.

(** One step of a case-insensitive literal match: [t] matches at the start
    of [s] under [re.IGNORECASE]. *)
Fixpoint match_here_ic (t s : string) : bool :=
  match t, s with
  | EmptyString, _ => true
  | String _ _, EmptyString => false
  | String a t', String b s' =>
      if Ascii.eqb (Py.lower_ascii a) (Py.lower_ascii b)
      then match_here_ic t' s' else false
  end.

(** The start offset of the leftmost match of the literal [t] in [s], counted
    from [i]. *)
Fixpoint search_from (t s : string) (i : nat) : option nat :=
  if match_here_ic t s then Some i
  else match s with
       | EmptyString => None
       | String _ s' => search_from t s' (S i)
       end.

(** [re.search(re.escape(term), s, re.IGNORECASE)]: the span
    [(match.start(), match.end())] of the leftmost match, or [None]. *)
Definition search_ic (term s : string) : option (nat * nat) :=
  match search_from term s 0 with
  | Some i => Some (i, (i + String.length term)%nat)
  | None => None
  end.

(** [re.sub(r'_LOD.*', '', s)]: every leftmost non-overlapping match of
    [_LOD] followed by the rest of its line is deleted; [.] does not match a
    newline, so the newline itself is kept and the scan goes on after it.
    [skipping] is true while the scan is inside a match. *)
Fixpoint sub_lod_from (skipping : bool) (s : string) : string :=
  match s with
  | EmptyString => EmptyString
  | String c s' =>
      if skipping then
        if Ascii.eqb c Py.newline then String c (sub_lod_from false s')
        else sub_lod_from true s'
      else if Py.startswith "_LOD" s then sub_lod_from true s'
      else String c (sub_lod_from false s')
  end.

Definition sub_lod (s : string) : string := sub_lod_from false s.

End Re.

(** ** The [os.path] calls of the linker (posixpath) *)

Module OsPath.

(** The [while] loop of [genericpath._splitext]: is there a character other
    than a dot in [p[filenameIndex:dotIndex]]?  [n] counts the iterations
    left, [dotIndex - filenameIndex]. *)
Fixpoint splitext_scan (p : string) (filenameIndex : Z) (n : nat) : bool :=
  match n with
  | O => false
  | S n' =>
      if negb (String.eqb (Py.take 1 (Py.drop (Z.to_nat filenameIndex) p)) ".")
      then true
      else splitext_scan p (filenameIndex + 1) n'
  end.

(** [os.path.splitext(p)]. *)
Definition splitext (p : string) : string * string :=
  let sepIndex := Py.rfind "/" p in
  let dotIndex := Py.rfind "." p in
  if (sepIndex <? dotIndex)
     && splitext_scan p (sepIndex + 1) (Z.to_nat (dotIndex - (sepIndex + 1)))
  then (Py.take (Z.to_nat dotIndex) p, Py.drop (Z.to_nat dotIndex) p)
  else (p, EmptyString).

(** [os.path.basename(p)]. *)
Definition basename (p : string) : string :=
  Py.drop (Z.to_nat (Py.rfind "/" p + 1)) p.

(** The component loop of [posixpath.normpath]; [new_comps] is kept in
    reverse, so its head is [new_comps[-1]]. *)
Fixpoint normpath_comps (initial_slashes : nat) (comps new_comps : list string)
  : list string :=
  match comps with
  | [] => rev new_comps
  | comp :: comps' =>
      if String.eqb comp "" || String.eqb comp "." then
        normpath_comps initial_slashes comps' new_comps
      else if negb (String.eqb comp "..")
              || (Nat.eqb initial_slashes 0
                  && match new_comps with [] => true | _ => false end)
              || match new_comps with
                 | last :: _ => String.eqb last ".."
                 | [] => false
                 end
      then normpath_comps initial_slashes comps' (comp :: new_comps)
      else normpath_comps initial_slashes comps' (tail new_comps)
  end.

(** [os.path.normpath(path)]. *)
Definition normpath (path : string) : string :=
  if String.eqb path "" then "."
  else
    let initial_slashes :=
      if Py.startswith "/" path then
        if Py.startswith "//" path && negb (Py.startswith "///" path)
        then 2%nat else 1%nat
      else 0%nat in
    let comps := normpath_comps initial_slashes (Py.split "/" path) [] in
    let path' := Py.join "/" comps in
    let path'' := Py.join "" (replicate initial_slashes "/") +:+ path' in
    if String.eqb path'' "" then "." else path''.

End OsPath.

(** ** The naming dictionary (the JSON document) *)

Record NamingEntry := { name : string; locked : bool }.

(** The JSON object: the category lists by key, and the two global flags,
    each of which may be absent. *)
Record TextureData := {
  categories : gmap string (list NamingEntry);
  prefer_exr : option bool;
  udim : option bool
}.

(** [[entry['name'] for entry in json_data.get(key, [])]]. *)
Definition names_of (json_data : TextureData) (key : string) : list string :=
  map name (default [] (categories json_data !! key)).

(** Truth value of a flag read with [json_data.get(flag)]: an absent flag is
    [None], which is false. *)
Definition truthy_flag (v : option bool) : bool := default false v.

(** Truth value of a string: the empty string is false. *)
Definition truthy_str (s : string) : bool := negb (String.eqb s "").

(** Truth value of a list: the empty list is false. *)
Definition truthy_list {A} (l : list A) : bool :=
  match l with [] => false | _ => true end.

(** [l.remove(x)] when [x] is in [l]: the first occurrence goes. *)
Fixpoint list_remove (x : string) (l : list string) : list string :=
  match l with
  | [] => []
  | y :: l' => if String.eqb y x then l' else y :: list_remove x l'
  end.

(** ** Link_Material.py *)

(** What a call does to the outside, in order: a warning shown in the host, a
    call of [os.path.exists], and the creation of the file node with its
    [fileTextureName], its [uvTilingMode] and its [place2dTexture] (the
    shading nodes that follow that node are host glue and are not recorded). *)
Inductive event :=
| Warning (msg : string)
| PathExists (path : string)
| FileTexture (node_name : string) (path : option string) (uvTilingMode : Z)
    (place2d : string).

(** How a call ends.  Every path of the functions below ends in a plain
    [return], whose value is [None]. *)
Inductive completion :=
| ReturnNone
| Raise (exception : string).

Record run := { events : list event; outcome : completion }.

(** The locals that the search loops update. *)
Record locals := {
  found_valid_path : bool;
  channel_path : option string;
  trace : list event
}.

Definition lod_levels : list string := [""; "_LOD0"; "_LOD1"; "_LOD2"].

Definition base_extensions : list string := [".exr"; ".jpg"; ".png"; ".tif"; ".tiff"].

(** Lines 381-384 of [set_maya_displacement_attributes]. *)
Definition displacement_extensions (prefer_exr : option bool) : list string :=
  let image_extensions := base_extensions in
  if negb (truthy_flag prefer_exr)
  then list_remove ".exr" image_extensions ++ [".exr"]
  else image_extensions.

(** [validate_image_file(file_path, base_color_terms)]; [str_lower] is the
    method [lower] of the strings, a library function. *)
Definition validate_image_file_with (str_lower : string -> string)
    (file_path : string) (base_color_terms : list string) : bool :=
  let file_name := str_lower (OsPath.basename file_path) in
  let additional_terms := ["basecolor"; "albedo"; "diffuse"] in
  let all_terms := base_color_terms ++ additional_terms in
  existsb (fun term => Py.contains (str_lower term) file_name) all_terms.

(** The same on Python 2.7 byte strings and on text whose cased letters are
    ASCII, where [lower] is [Py.lower]. *)
Definition validate_image_file (file_path : string) (base_color_terms : list string)
  : bool :=
  validate_image_file_with Py.lower file_path base_color_terms.

(** The five channel functions are the same text up to: the dictionary key,
    the warning of the not-found case, the name of the file node, the
    [os.path.normpath] that only the roughness function applies to a
    potential path, and the extension list, which only the displacement
    function reorders. *)
Record channel := {
  key : string;
  not_found : string;
  node_name : string;
  normalize : string -> string;
  image_extensions : option bool -> list string
}.

Section Linker.

(** [os.path.exists]. *)
Variable os_path_exists : string -> bool.

Section Search.

Variable ch : channel.
Variable prefer_exr_flag : option bool.

(** [for ext in image_extensions: ...] *)
Fixpoint for_ext (potential_path : string) (exts : list string) (st : locals)
  : locals :=
  match exts with
  | [] => st
  | ext :: exts' =>
      let candidate_path := (OsPath.splitext potential_path).1 +:+ ext in
      let tr := trace st ++ [PathExists candidate_path] in
      if os_path_exists candidate_path
      then {| found_valid_path := true;
              channel_path := Some candidate_path;
              trace := tr |}
      else for_ext potential_path exts'
             {| found_valid_path := found_valid_path st;
                channel_path := channel_path st;
                trace := tr |}
  end.

(** [for lod in lod_levels: ...] with its [if found_valid_path: break]. *)
Fixpoint for_lod (image_path : string) (m : nat * nat) (replacement : string)
    (lods : list string) (st : locals) : locals :=
  match lods with
  | [] => st
  | lod :: lods' =>
      let potential_path :=
        normalize ch
          (Py.take m.1 image_path +:+ replacement +:+ lod
             +:+ Py.drop m.2 image_path) in
      let st' := for_ext potential_path (image_extensions ch prefer_exr_flag) st in
      if found_valid_path st' then st'
      else for_lod image_path m replacement lods' st'
  end.

(** [for replacement in channel_terms: ...] *)
Fixpoint for_replacement (image_path term : string) (replacements : list string)
    (st : locals) : locals :=
  match replacements with
  | [] => st
  | replacement :: replacements' =>
      let st' :=
        match Re.search_ic term image_path with
        | Some m => for_lod image_path m replacement lod_levels st
        | None => st
        end in
      if found_valid_path st' then st'
      else for_replacement image_path term replacements' st'
  end.

(** [for term in base_color_terms: ...] *)
Fixpoint for_term (image_path : string) (terms replacements : list string)
    (st : locals) : locals :=
  match terms with
  | [] => st
  | term :: terms' =>
      let st' := for_replacement image_path term replacements st in
      if found_valid_path st' then st'
      else for_term image_path terms' replacements st'
  end.

End Search.

Definition warn (msg : string) : run :=
  {| events := [Warning msg]; outcome := ReturnNone |}.

(** Lines 197-201: the LOD suffix is cut from the stem and the extension
    is put back. *)
Definition strip_lod (image_path : string) : string :=
  let '(base_name, ext) := OsPath.splitext image_path in
  let base_name := Re.sub_lod base_name in
  base_name +:+ ext.

Definition initial_locals : locals :=
  {| found_valid_path := false; channel_path := None; trace := [] |}.

(** The body shared by the five [set_maya_*_attributes] functions.
    [json_data] is what [load_texture_names()] returned. *)
Definition link_channel (ch : channel) (json_data : option TextureData)
    (image_path material place2d_texture_node : string) (udim : option bool) : run :=
  if negb (truthy_str image_path) || negb (truthy_str material) then
    warn "No valid image or material selected."
  else
    match json_data with
    | None => warn "No valid JSON data loaded."
    | Some json_data =>
        let base_color_terms := names_of json_data "BaseColor" in
        let channel_terms := names_of json_data (key ch) in
        let prefer_exr := prefer_exr json_data in
        if negb (truthy_list base_color_terms) || negb (truthy_list channel_terms) then
          warn "No valid texture terms found in the JSON data."
        else
          let image_path := strip_lod image_path in
          let st := for_term ch prefer_exr image_path base_color_terms
                      channel_terms initial_locals in
          if negb (found_valid_path st) then
            {| events := trace st ++ [Warning (not_found ch)];
               outcome := ReturnNone |}
          else
            {| events := trace st ++
                 [FileTexture (node_name ch) (channel_path st)
                    (if negb (truthy_flag udim) then 0 else 3)
                    place2d_texture_node];
               outcome := ReturnNone |}
    end.

Definition roughness : channel :=
  {| key := "Roughness";
     not_found := "No roughness texture found at path";
     node_name := "Roughness_File";
     normalize := OsPath.normpath;
     image_extensions := fun _ => base_extensions |}.

Definition metallic : channel :=
  {| key := "Metallic";
     not_found := "No metallic texture found at path";
     node_name := "Metallic_File";
     normalize := fun p => p;
     image_extensions := fun _ => base_extensions |}.

Definition displacement : channel :=
  {| key := "Height";
     not_found := "No displacement texture found at path";
     node_name := "Displacement_File";
     normalize := fun p => p;
     image_extensions := displacement_extensions |}.

Definition normal : channel :=
  {| key := "Normal";
     not_found := "No normal texture found at path";
     node_name := "Normal_File";
     normalize := fun p => p;
     image_extensions := fun _ => base_extensions |}.

Definition opacity : channel :=
  {| key := "Opacity";
     not_found := "No opacity texture found at path";
     node_name := "Opacity_File";
     normalize := fun p => p;
     image_extensions := fun _ => base_extensions |}.

Definition set_maya_roughness_attributes := link_channel roughness.
Definition set_maya_metallic_attributes := link_channel metallic.
Definition set_maya_displacement_attributes := link_channel displacement.
Definition set_maya_normal_attributes := link_channel normal.
Definition set_maya_opacity_attributes := link_channel opacity.

End Linker.

(** ** Texture_name_manager.py: [add_texture_name] *)

(** What the add operation does to the host UI. *)
Inductive ui_event :=
| ConfirmDialog (title message : string)
| ListAppend (tab display : string)
| ClearInput.

(** Lines 133-148: the tab-to-category mapping. *)
Definition texture_type_of_tab (selected_tab : string) : option string :=
  if String.eqb selected_tab "BaseColor" then Some "BaseColor"
  else if String.eqb selected_tab "Roughness" then Some "Roughness"
  else if String.eqb selected_tab "Metallic" then Some "Metallic"
  else if String.eqb selected_tab "Normal" then Some "Normal"
  else if String.eqb selected_tab "Height" then Some "Height"
  else if String.eqb selected_tab "Specular" then Some "Specular"
  else if String.eqb selected_tab "Opacity" then Some "Opacity"
  else None.

(** [name in existing_names]. *)
Definition name_in (n : string) (existing_names : list string) : bool :=
  existsb (String.eqb n) existing_names.

(** Lines 171-174: the new objects extend the list of the category, or
    become it when the document has no such key. *)
Definition extend_category (texture_type : string) (texture_objects : list NamingEntry)
    (texture_data : TextureData) : TextureData :=
  {| categories :=
       match categories texture_data !! texture_type with
       | Some l => <[texture_type := l ++ texture_objects]> (categories texture_data)
       | None => <[texture_type := texture_objects]> (categories texture_data)
       end;
     prefer_exr := prefer_exr texture_data;
     udim := udim texture_data |}.

(** The names that an input text submits. *)
Definition submitted (text : string) : list string :=
  map Py.strip (Py.split "," (Py.strip text)).

(** [add_texture_name]: [text] is the content of the input field,
    [selected_tab] the selected tab and [stored] the JSON document on disk.
    The result is the document on disk afterwards and what the UI was told. *)
Definition add_texture_name (text selected_tab : string) (stored : TextureData)
  : TextureData * list ui_event :=
  let alternative_names := Py.strip text in
  if truthy_str alternative_names then
    let alternative_names_list := map Py.strip (Py.split "," alternative_names) in
    let texture_display_str := Py.join ", " alternative_names_list in
    match texture_type_of_tab selected_tab with
    | Some texture_type =>
        let texture_data := stored in
        let existing_names := names_of texture_data texture_type in
        let duplicates :=
          List.filter (fun n => name_in n existing_names) alternative_names_list in
        if truthy_list duplicates then
          (stored,
           [ConfirmDialog "Duplicate Texture Name"
              ("The following texture names already exist: " +:+
               String Py.newline "" +:+ Py.join (String Py.newline "") duplicates);
            ClearInput])
        else
          let texture_objects :=
            map (fun n => {| name := n; locked := false |}) alternative_names_list in
          (extend_category texture_type texture_objects texture_data,
           (if String.eqb selected_tab "Specular" then []
            else [ListAppend selected_tab texture_display_str]) ++ [ClearInput])
    | None => (stored, [ClearInput])
    end
  else (stored, []).

(** ** The search loops as one scan of a candidate list *)

(** The calls of [os.path.exists] in a trace, in order. *)
Fixpoint exists_calls (evs : list event) : list string :=
  match evs with
  | [] => []
  | PathExists p :: evs' => p :: exists_calls evs'
  | _ :: evs' => exists_calls evs'
  end.

(** The path that a run handed to the file node, if it made one. *)
Fixpoint linked_path (evs : list event) : option string :=
  match evs with
  | [] => None
  | FileTexture _ p _ _ :: _ => p
  | _ :: evs' => linked_path evs'
  end.

(** The warnings of a run, in order. *)
Fixpoint warnings (evs : list event) : list string :=
  match evs with
  | [] => []
  | Warning m :: evs' => m :: warnings evs'
  | _ :: evs' => warnings evs'
  end.

Section ScanDefs.

Variable os_path_exists : string -> bool.

(** The candidates a scan looks at: all up to and including the first one
    that exists. *)
Fixpoint probed (cands : list string) : list string :=
  match cands with
  | [] => []
  | c :: cands' => c :: (if os_path_exists c then [] else probed cands')
  end.

(** A scan of an explicit candidate list, with the same body as the
    innermost loop. *)
Fixpoint scan (cands : list string) (st : locals) : locals :=
  match cands with
  | [] => st
  | candidate_path :: cands' =>
      let tr := trace st ++ [PathExists candidate_path] in
      if os_path_exists candidate_path
      then {| found_valid_path := true;
              channel_path := Some candidate_path;
              trace := tr |}
      else scan cands'
             {| found_valid_path := found_valid_path st;
                channel_path := channel_path st;
                trace := tr |}
  end.

End ScanDefs.

Section Candidates.

Variable ch : channel.
Variable pe : option bool.

(** The candidates built from one base-colour term: none when the term
    does not occur in the path; otherwise, for each replacement term, LOD
    suffix and extension in this nesting, the path with the leftmost
    occurrence of the term replaced, normalised if the channel does so,
    and its extension replaced. *)
Definition term_candidates (image_path : string) (replacements : list string)
    (term : string) : list string :=
  match Re.search_ic term image_path with
  | Some m =>
      flat_map (fun replacement =>
        flat_map (fun lod =>
          map (fun ext =>
                 (OsPath.splitext
                    (normalize ch
                       (Py.take m.1 image_path +:+ replacement +:+ lod
                          +:+ Py.drop m.2 image_path))).1 +:+ ext)
              (image_extensions ch pe))
          lod_levels)
        replacements
  | None => []
  end.

(** The candidates of all base-colour terms, term by term. *)
Definition all_candidates (image_path : string) (terms replacements : list string)
  : list string :=
  flat_map (term_candidates image_path replacements) terms.

End Candidates.

(** The same nesting with the normalisation and the extension list given
    outright. *)
Definition candidates_with (norm : string -> string) (extensions : list string)
    (image_path : string) (terms replacements : list string) : list string :=
  flat_map (fun term =>
    match Re.search_ic term image_path with
    | Some m =>
        flat_map (fun replacement =>
          flat_map (fun lod =>
            map (fun ext =>
                   (OsPath.splitext
                      (norm (Py.take m.1 image_path +:+ replacement +:+ lod
                               +:+ Py.drop m.2 image_path))).1 +:+ ext)
                extensions)
            lod_levels)
          replacements
    | None => []
    end) terms.

(** The candidate sequence of a call of a channel function: empty when the
    call stops at one of its guards. *)
Definition call_candidates (ch : channel) (json_data : option TextureData)
    (image_path material : string) : list string :=
  if negb (truthy_str image_path) || negb (truthy_str material) then []
  else
    match json_data with
    | None => []
    | Some json_data =>
        let base_color_terms := names_of json_data "BaseColor" in
        let channel_terms := names_of json_data (key ch) in
        if negb (truthy_list base_color_terms) || negb (truthy_list channel_terms)
        then []
        else all_candidates ch (prefer_exr json_data) (strip_lod image_path)
               base_color_terms channel_terms
    end.

(** ** The resolution as the specification words it *)

Module Spec.

(** Term Matcher: the first term, in dictionary order, that occurs in the
    file name, with the span of its first occurrence. *)
Fixpoint find_term (filename : string) (terms : list string)
  : option (string * nat * nat) :=
  match terms with
  | [] => None
  | t :: terms' =>
      match Re.search_ic t filename with
      | Some (s, e) => Some (t, s, e)
      | None => find_term filename terms'
      end
  end.

(** Candidate Generator: replacement terms, then LOD suffixes, then
    extensions; the span is replaced and the extension substituted. *)
Definition generate (canonical_filename : string) (match_span : nat * nat)
    (replacement_terms lod_suffixes extensions : list string) : list string :=
  flat_map (fun replacement_term =>
    flat_map (fun lod_suffix =>
      map (fun ext =>
             (OsPath.splitext
                (Py.take match_span.1 canonical_filename +:+ replacement_term
                   +:+ lod_suffix +:+ Py.drop match_span.2 canonical_filename)).1
             +:+ ext)
          extensions)
      lod_suffixes)
    replacement_terms.

(** The candidate sequence of one resolution. *)
Definition candidates (extensions : list string) (base_color_path : string)
    (base_color_terms replacement_terms : list string) : list string :=
  let canonical_filename := strip_lod base_color_path in
  match find_term canonical_filename base_color_terms with
  | Some (_, s, e) =>
      generate canonical_filename (s, e) replacement_terms lod_levels extensions
  | None => []
  end.

(** Within a category the names are pairwise different. *)
Definition unique_names (td : TextureData) (category : string) : Prop :=
  NoDup (names_of td category).


(** [term] occurs in [s] when the case of the ASCII letters is ignored: a
    piece of [s] is the term up to that case. *)
Definition occurs_ic (term s : string) : Prop :=
  exists pre mid post,
    s = pre +:+ mid +:+ post /\ Py.lower mid = Py.lower term.

End Spec.

(** ** The data of the examples *)

Definition entry (n : string) : NamingEntry := {| name := n; locked := false |}.

(** BaseColor = [BaseColor, Albedo], Roughness = [Roughness]. *)
Definition rock_dictionary : TextureData :=
  {| categories :=
       <["BaseColor" := [entry "BaseColor"; entry "Albedo"]]>
         (<["Roughness" := [entry "Roughness"]]> ∅);
     prefer_exr := None;
     udim := None |}.

(** The same with a metallic and a height list. *)
Definition rock_dictionary_all : TextureData :=
  {| categories :=
       <["Metallic" := [entry "Metallic"]]>
         (<["Height" := [entry "Height"]]> (categories rock_dictionary));
     prefer_exr := None;
     udim := None |}.

(** The candidates that a call goes through when no file exists at all. *)
Definition enumerated (ch : channel) (json_data : option TextureData)
    (image_path material : string) : list string :=
  exists_calls
    (events (link_channel (fun _ => false) ch json_data image_path material "" None)).

(** The document with its [prefer_exr] flag set to [v]. *)
Definition with_prefer_exr (v : option bool) (td : TextureData) : TextureData :=
  {| categories := categories td; prefer_exr := v; udim := udim td |}.

(** A filesystem with one file. *)
Definition only (file : string) : string -> bool := String.eqb file.

(** ** Texture_name_manager.py: [delete_texture_name] and the two toggles *)

(** What the delete operation does to the host UI. *)
Inductive delete_event :=
| LockedDialog
| ListRemove (tab item : string).

(** Lines 198-221: the tab-to-category mapping of the delete operation; it
    has no Specular case. *)
Definition delete_type_of_tab (selected_tab : string) : option string :=
  if String.eqb selected_tab "BaseColor" then Some "BaseColor"
  else if String.eqb selected_tab "Roughness" then Some "Roughness"
  else if String.eqb selected_tab "Metallic" then Some "Metallic"
  else if String.eqb selected_tab "Normal" then Some "Normal"
  else if String.eqb selected_tab "Height" then Some "Height"
  else if String.eqb selected_tab "Opacity" then Some "Opacity"
  else None.

(** Equality of two entries, as [==] on the two dictionaries. *)
Definition entry_eqb (a b : NamingEntry) : bool :=
  String.eqb (name a) (name b) && Bool.eqb (locked a) (locked b).

(** [texture_data.get(category, [])]. *)
Definition entries (td : TextureData) (category : string) : list NamingEntry :=
  default [] (categories td !! category).

(** Lines 231-235: the first entry whose name is the selected one. *)
Fixpoint find_texture (selected_name : string) (textures : list NamingEntry)
  : option NamingEntry :=
  match textures with
  | [] => None
  | texture :: textures' =>
      if String.eqb (name texture) selected_name then Some texture
      else find_texture selected_name textures'
  end.

(** [l.remove(x)] on a list of entries: the first entry equal to [x] goes. *)
Fixpoint remove_entry (x : NamingEntry) (l : list NamingEntry) : list NamingEntry :=
  match l with
  | [] => []
  | y :: l' => if entry_eqb y x then l' else y :: remove_entry x l'
  end.

(** [delete_texture_name]: [selected] is what the list of the selected tab
    returns for its selected items ([None] when nothing is selected) and
    [stored] the JSON document on disk. *)
Definition delete_texture_name (selected_tab : string) (selected : option (list string))
    (stored : TextureData) : TextureData * list delete_event :=
  match delete_type_of_tab selected_tab, selected with
  | Some texture_type, Some (selected_name :: _) =>
      let texture_data := stored in
      match find_texture selected_name
              (default [] (categories texture_data !! texture_type)) with
      | Some texture_to_remove =>
          if locked texture_to_remove then (stored, [LockedDialog])
          else
            ({| categories :=
                  <[texture_type :=
                      remove_entry texture_to_remove
                        (default [] (categories texture_data !! texture_type))]>
                    (categories texture_data);
                prefer_exr := prefer_exr texture_data;
                udim := udim texture_data |},
             [ListRemove selected_tab selected_name])
      | None => (stored, [])
      end
  | _, _ => (stored, [])
  end.

(** [toggle_prefer_exr(checked)] and [toggle_udim(checked)], as the document
    they save. *)
Definition toggle_prefer_exr (checked : bool) (texture_data : TextureData)
  : TextureData :=
  {| categories := categories texture_data;
     prefer_exr := Some checked;
     udim := udim texture_data |}.

Definition toggle_udim (checked : bool) (texture_data : TextureData) : TextureData :=
  {| categories := categories texture_data;
     prefer_exr := prefer_exr texture_data;
     udim := Some checked |}.

(** One action of an editing session of the manager. *)
Inductive edit :=
| Add (text selected_tab : string)
| Delete (selected_tab : string) (selected : option (list string))
| TogglePreferExr (checked : bool)
| ToggleUdim (checked : bool).

Definition apply_edit (stored : TextureData) (e : edit) : TextureData :=
  match e with
  | Add text selected_tab => (add_texture_name text selected_tab stored).1
  | Delete selected_tab selected => (delete_texture_name selected_tab selected stored).1
  | TogglePreferExr checked => toggle_prefer_exr checked stored
  | ToggleUdim checked => toggle_udim checked stored
  end.

(** The document after a session: each action loads what the one before it
    saved. *)
Definition apply_edits (stored : TextureData) (es : list edit) : TextureData :=
  fold_left apply_edit es stored.

(** ** Link_Material.py: the JSON load *)

(** What the user does in one round of the selection loop: the dialog is
    cancelled or dismissed, or it is confirmed and the file dialog gives the
    path [choice] ([None] when that dialog is closed without a file). *)
Inductive user_step :=
| Cancel
| Select (choice : option string).

(** What the load shows and stores; the console prints are not recorded. *)
Inductive loader_event :=
| AskDialog (title : string)
| ErrorDialog
| FileDialog
| SavePath (path : string).

(** What [json.load] gives for a file that it reads: the document, or
    [None] for a file that holds the JSON value [null]. *)
Inductive json_file :=
| JsonNull
| JsonDocument (json_data : TextureData).

(** How a load ends: with the document, with [None] (after a cancel, or
    from a file that holds [null]), or still in its loop when the recorded
    user steps are used up. *)
Inductive load_result :=
| Loaded (json_data : TextureData)
| NoData
| AwaitingUser.

Record load := {
  loaded : load_result;
  saved_after : option string;
  script_after : list user_step;
  dialogs : list loader_event
}.

Section Loader.

(** [open(path)] followed by [json.load]: [None] stands for the [IOError]
    or [ValueError] that the load catches. *)
Variable read_json : string -> option json_file.

(** [return json.load(file)]. *)
Definition loaded_of (r : json_file) : load_result :=
  match r with
  | JsonDocument json_data => Loaded json_data
  | JsonNull => NoData
  end.

(** The two [while True] loops of [load_texture_names] have the same body
    up to the title of the dialog and the extra error dialog that only the
    second loop shows after a file that does not load. *)
Fixpoint select_loop (title : string) (error_dialog : bool)
    (script : list user_step) (saved : option string) (evs : list loader_event)
  : load :=
  match script with
  | [] =>
      {| loaded := AwaitingUser; saved_after := saved; script_after := [];
         dialogs := evs ++ [AskDialog title] |}
  | Cancel :: script' =>
      {| loaded := NoData; saved_after := saved; script_after := script';
         dialogs := evs ++ [AskDialog title] |}
  | Select None :: script' =>
      select_loop title error_dialog script' saved
        (evs ++ [AskDialog title; FileDialog])
  | Select (Some json_path) :: script' =>
      let evs := evs ++ [AskDialog title; FileDialog; SavePath json_path] in
      match read_json json_path with
      | Some r =>
          {| loaded := loaded_of r; saved_after := Some json_path;
             script_after := script'; dialogs := evs |}
      | None =>
          select_loop title error_dialog script' (Some json_path)
            (if error_dialog then evs ++ [ErrorDialog] else evs)
      end
  end.

(** [load_texture_names()], and [load_texture_data_from_json()] of the
    manager, which is the same text. [saved] is the option variable
    [json_file_path]. *)
Definition load_texture_names (saved : option string) (script : list user_step)
  : load :=
  match saved with
  | Some json_path =>
      if truthy_str json_path then
        match read_json json_path with
        | Some r =>
            {| loaded := loaded_of r; saved_after := saved;
               script_after := script; dialogs := [] |}
        | None => select_loop "Error" false script saved []
        end
      else select_loop "No File Selected" true script saved []
  | None => select_loop "No File Selected" true script saved []
  end.

Definition load_texture_data_from_json := load_texture_names.

End Loader.

(** What the stored path gives when the load starts: what [json.load] reads
    from the file it names, or nothing when there is no path, the path is
    empty or the file does not load. *)
Definition saved_document (read_json : string -> option json_file)
    (saved : option string) : option json_file :=
  match saved with
  | Some json_path => if truthy_str json_path then read_json json_path else None
  | None => None
  end.

(** The loop that the load enters when the stored path gives nothing: the
    title of its dialog, and whether it shows the error dialog. *)
Definition loop_of (saved : option string) : string * bool :=
  match saved with
  | Some json_path =>
      if truthy_str json_path then ("Error", false) else ("No File Selected", true)
  | None => ("No File Selected", true)
  end.

(** What the loop shows and stores while it goes through steps that neither
    cancel nor select a file that loads. *)
Fixpoint passed_over (title : string) (error_dialog : bool) (steps : list user_step)
  : list loader_event :=
  match steps with
  | [] => []
  | Cancel :: steps' => passed_over title error_dialog steps'
  | Select None :: steps' =>
      [AskDialog title; FileDialog] ++ passed_over title error_dialog steps'
  | Select (Some p) :: steps' =>
      [AskDialog title; FileDialog; SavePath p]
        ++ (if error_dialog then [ErrorDialog] else [])
        ++ passed_over title error_dialog steps'
  end.

(** The paths that the steps of a script select, in order. *)
Fixpoint selections (script : list user_step) : list string :=
  match script with
  | [] => []
  | Select (Some p) :: script' => p :: selections script'
  | _ :: script' => selections script'
  end.

(** ** Link_Material.py: the selection, the base-colour node and [main] *)

(** A value returned or an exception raised. *)
Inductive returned (A : Type) :=
| Returns (v : A)
| Raises (exception : string).

Arguments Returns {A} v.
Arguments Raises {A} exception.

(** [get_selected_material()]: [selected_objects] is what
    [cmds.ls(selection=True)] gives and [materials] what
    [cmds.ls(l=True, type="aiStandardSurface", sl=True)] gives. *)
Definition get_selected_material (selected_objects materials : list string)
  : returned (option string) * list event :=
  if negb (truthy_list selected_objects) then
    (Returns None, [Warning "No node selected. Please select a node first."])
  else
    match materials with
    | [] => (Raises "IndexError", [])
    | material :: _ =>
        if negb (truthy_str material) then
          (Returns None,
           [Warning "No aiStandardSurface material found for the selected object."])
        else (Returns (Some material), [])
    end.

(** [set_maya_bc_attributes]: the file node of the base colour gets the
    selected path as it is. *)
Definition set_maya_bc_attributes (image_path material place2d_texture_node : string)
    (udim : option bool) : run :=
  if negb (truthy_str image_path) || negb (truthy_str material) then
    warn "No valid image or material selected."
  else
    {| events :=
         [FileTexture "BaseColor_File" (Some image_path)
            (if negb (truthy_flag udim) then 0 else 3) place2d_texture_node];
       outcome := ReturnNone |}.

(** What a run of [main] does, in order. *)
Inductive main_event :=
| FromLoader (e : loader_event)
| FromHost (e : event)
| Place2dTexture.

(** How a run of [main] stands: it returned, an exception left it, or it
    waits in a selection loop for a user step that is not recorded. *)
Inductive main_status :=
| Done
| Failed (exception : string)
| Blocked.

Record session := {
  saved_path : option string;
  script : list user_step;
  log : list main_event;
  status : main_status
}.

Section Main.

Variable read_json : string -> option json_file.
Variable os_path_exists : string -> bool.

Definition host (evs : list event) (s : session) : session :=
  {| saved_path := saved_path s; script := script s;
     log := log s ++ map FromHost evs; status := status s |}.

(** A channel function as [main] calls it: after its first guard it loads
    the document itself. *)
Definition load_and_link (ch : channel)
    (image_path material place2d_texture_node : string) (udim : option bool)
    (s : session) : session :=
  match status s with
  | Done =>
      if negb (truthy_str image_path) || negb (truthy_str material) then
        host (events (link_channel os_path_exists ch None image_path material
                        place2d_texture_node udim)) s
      else
        let l := load_texture_names read_json (saved_path s) (script s) in
        let s' :=
          {| saved_path := saved_after l; script := script_after l;
             log := log s ++ map FromLoader (dialogs l); status := Done |} in
        match loaded l with
        | AwaitingUser =>
            {| saved_path := saved_path s'; script := script s';
               log := log s'; status := Blocked |}
        | NoData =>
            host (events (link_channel os_path_exists ch None image_path material
                            place2d_texture_node udim)) s'
        | Loaded json_data =>
            host (events (link_channel os_path_exists ch (Some json_data)
                            image_path material place2d_texture_node udim)) s'
        end
  | _ => s
  end.

(** [main()]. [file_choice] is what the image file dialog gives and
    [place2d] the name of the node that [cmds.shadingNode] makes. *)
Definition main (saved : option string) (steps : list user_step)
    (selected_objects materials : list string) (file_choice : option string)
    (place2d : string) : session :=
  let l := load_texture_names read_json saved steps in
  let s :=
    {| saved_path := saved_after l; script := script_after l;
       log := map FromLoader (dialogs l); status := Done |} in
  match loaded l with
  | AwaitingUser =>
      {| saved_path := saved_path s; script := script s; log := log s;
         status := Blocked |}
  | NoData => host [Warning "No valid JSON data loaded."] s
  | Loaded json_data =>
      let udim_workflow := udim json_data in
      let base_color_terms := names_of json_data "BaseColor" in
      if negb (truthy_list base_color_terms) then
        host [Warning "No Base Color terms found in the JSON data."] s
      else
        match get_selected_material selected_objects materials with
        | (Raises exception, evs) =>
            {| saved_path := saved_path s; script := script s;
               log := log s ++ map FromHost evs; status := Failed exception |}
        | (Returns None, evs) =>
            host (evs ++ [Warning "No valid aiStandardSurface material selected."]) s
        | (Returns (Some material), evs) =>
            let s := host evs s in
            match file_choice with
            | None => s
            | Some file_path =>
                if negb (truthy_str file_path) then s
                else if negb (validate_image_file file_path base_color_terms) then
                  host [Warning
                          "The selected image file does not contain any related Basecolor Names in the filename. Please select the appropriate BaseColor map."]
                    s
                else
                  let s :=
                    {| saved_path := saved_path s; script := script s;
                       log := log s ++ [Place2dTexture]; status := status s |} in
                  let s :=
                    host (events (set_maya_bc_attributes file_path material place2d
                                    udim_workflow)) s in
                  let s := load_and_link metallic file_path material place2d
                             udim_workflow s in
                  let s := load_and_link roughness file_path material place2d
                             udim_workflow s in
                  let s := load_and_link opacity file_path material place2d
                             udim_workflow s in
                  let s := load_and_link normal file_path material place2d
                             udim_workflow s in
                  load_and_link displacement file_path material place2d
                    udim_workflow s
            end
        end
  end.

End Main.

(** The events of the host in a log of [main], in order. *)
Fixpoint host_events (evs : list main_event) : list event :=
  match evs with
  | [] => []
  | FromHost e :: evs' => e :: host_events evs'
  | _ :: evs' => host_events evs'
  end.

(** The dialogs and stores of the load in a log of [main], in order. *)
Fixpoint loader_events (evs : list main_event) : list loader_event :=
  match evs with
  | [] => []
  | FromLoader e :: evs' => e :: loader_events evs'
  | _ :: evs' => loader_events evs'
  end.

(** The file nodes among the events of the host: name, path, tiling mode. *)
Fixpoint file_nodes (evs : list event) : list (string * option string * Z) :=
  match evs with
  | [] => []
  | FileTexture n p t _ :: evs' => (n, p, t) :: file_nodes evs'
  | _ :: evs' => file_nodes evs'
  end.

(** ** AML_Menu.py: [addpmamenuitems] *)

(** [addpmamenuitems(ned, node)]: [node_type] is what [cmds.nodeType(node)]
    gives and [items] the menu items that exist, in the order of their
    creation. The result is the returned value and the items afterwards. *)
Definition addpmamenuitems (node_type : string) (items : list string)
  : bool * list string :=
  if String.eqb node_type "aiStandardSurface" then
    let existing_menu := existsb (String.eqb "LinkMaterial") items in
    (true, if negb existing_menu then items ++ ["LinkMaterial"] else items)
  else (false, items).

(** The menu items after the callback has run on nodes of the given types,
    one after the other. *)
Definition menu_after (node_types : list string) (items : list string) : list string :=
  fold_left (fun its node_type => (addpmamenuitems node_type its).2) node_types items.

(** * Properties *)

(** ** The primitives on some inputs *)

Example splitext_png : OsPath.splitext "Rock_BaseColor_LOD1.png" = ("Rock_BaseColor_LOD1", ".png").
Proof. reflexivity. Qed.

Example splitext_dotfile : OsPath.splitext "tex/.hidden" = ("tex/.hidden", "").
Proof. reflexivity. Qed.

Example splitext_dir_dot : OsPath.splitext "a.b/Rock" = ("a.b/Rock", "").
Proof. reflexivity. Qed.

Example normpath_dslash : OsPath.normpath "tex//Rock_Roughness.png" = "tex/Rock_Roughness.png".
Proof. reflexivity. Qed.

Example normpath_dotdot : OsPath.normpath "/a/b/../../../c/./d/" = "/c/d".
Proof. reflexivity. Qed.

Example normpath_rel_dotdot : OsPath.normpath "../a/.." = "..".
Proof. reflexivity. Qed.

Example sub_lod_suffix : Re.sub_lod "Rock_BaseColor_LOD1" = "Rock_BaseColor".
Proof. reflexivity. Qed.

Example search_ic_basecolor : Re.search_ic "BaseColor" "Rock_basecolor.tif" = Some (5%nat, 14%nat).
Proof. reflexivity. Qed.

Section Scan.

Variable os_path_exists : string -> bool.

Lemma exists_calls_app evs1 evs2 :
  exists_calls (evs1 ++ evs2) = exists_calls evs1 ++ exists_calls evs2.
Proof.
  induction evs1 as [|[]]; simpl; congruence.
Qed.

Lemma exists_calls_map cands : exists_calls (map PathExists cands) = cands.
Proof.
  induction cands; simpl; congruence.
Qed.

Lemma scan_app l1 l2 st :
  found_valid_path st = false ->
  scan os_path_exists (l1 ++ l2) st =
    if found_valid_path (scan os_path_exists l1 st) then scan os_path_exists l1 st
    else scan os_path_exists l2 (scan os_path_exists l1 st).
Proof.
  revert st. induction l1 as [|c l1 IH]; intros st Hst; simpl.
  - by rewrite Hst.
  - destruct (os_path_exists c); [done|]. by apply IH.
Qed.

(** What a scan leaves in the locals. *)
Lemma scan_spec cands st :
  scan os_path_exists cands st =
    {| found_valid_path :=
         found_valid_path st || bool_decide (is_Some (find os_path_exists cands));
       channel_path :=
         match find os_path_exists cands with
         | Some p => Some p
         | None => channel_path st
         end;
       trace := trace st ++ map PathExists (probed os_path_exists cands) |}.
Proof.
  revert st. induction cands as [|c cands IH]; intros [f p tr]; simpl.
  - by rewrite orb_false_r, app_nil_r.
  - destruct (os_path_exists c); simpl.
    + by rewrite orb_true_r.
    + rewrite IH. simpl. by rewrite <- app_assoc.
Qed.

Section Loops.

Variable ch : channel.
Variable pe : option bool.

Lemma for_ext_scan potential exts st :
  for_ext os_path_exists potential exts st =
    scan os_path_exists
      (map (fun ext => (OsPath.splitext potential).1 +:+ ext) exts) st.
Proof.
  revert st. induction exts as [|e exts IH]; intros st; simpl; [done|].
  destruct (os_path_exists _); [done|]. apply IH.
Qed.

Lemma for_lod_scan image_path m replacement lods st :
  found_valid_path st = false ->
  for_lod os_path_exists ch pe image_path m replacement lods st =
    scan os_path_exists
      (flat_map (fun lod =>
         map (fun ext =>
                (OsPath.splitext
                   (normalize ch
                      (Py.take m.1 image_path +:+ replacement +:+ lod
                         +:+ Py.drop m.2 image_path))).1 +:+ ext)
             (image_extensions ch pe)) lods) st.
Proof.
  revert st. induction lods as [|lod lods IH]; intros st Hst; simpl; [done|].
  rewrite scan_app by done. rewrite for_ext_scan.
  destruct (found_valid_path (scan _ _ st)) eqn:E; [done|]. by apply IH.
Qed.

Lemma for_replacement_scan image_path term replacements st :
  found_valid_path st = false ->
  for_replacement os_path_exists ch pe image_path term replacements st =
    scan os_path_exists (term_candidates ch pe image_path replacements term) st.
Proof.
  unfold term_candidates.
  revert st.
  induction replacements as [|r rs IH]; intros st Hst;
    cbn [for_replacement flat_map].
  - by destruct (Re.search_ic term image_path).
  - destruct (Re.search_ic term image_path) as [m|] eqn:Em.
    + rewrite scan_app by done. rewrite for_lod_scan by done.
      destruct (found_valid_path (scan _ _ st)) eqn:E; [done|]. by apply IH.
    + rewrite Hst. by apply IH.
Qed.

Lemma for_term_scan image_path terms replacements st :
  found_valid_path st = false ->
  for_term os_path_exists ch pe image_path terms replacements st =
    scan os_path_exists (all_candidates ch pe image_path terms replacements) st.
Proof.
  unfold all_candidates.
  revert st. induction terms as [|t ts IH]; intros st Hst; simpl; [done|].
  rewrite scan_app by done. rewrite for_replacement_scan by done.
  destruct (found_valid_path (scan _ _ st)) eqn:E; [done|]. by apply IH.
Qed.

End Loops.

(** A call of a channel function: the candidates are probed in order up to
    the first that exists; that one goes to the file node, and when there is
    none the not-found warning is shown. The guards give one warning. *)
Lemma link_channel_events ch json_data image_path material place2d udim :
  events (link_channel os_path_exists ch json_data image_path material place2d udim) =
    if negb (truthy_str image_path) || negb (truthy_str material) then
      [Warning "No valid image or material selected."]
    else
      match json_data with
      | None => [Warning "No valid JSON data loaded."]
      | Some td =>
          if negb (truthy_list (names_of td "BaseColor"))
             || negb (truthy_list (names_of td (key ch)))
          then [Warning "No valid texture terms found in the JSON data."]
          else
            let cands := call_candidates ch json_data image_path material in
            map PathExists (probed os_path_exists cands) ++
              [match find os_path_exists cands with
               | Some p =>
                   FileTexture (node_name ch) (Some p)
                     (if negb (truthy_flag udim) then 0 else 3) place2d
               | None => Warning (not_found ch)
               end]
      end.
Proof.
  unfold link_channel, call_candidates.
  destruct (negb (truthy_str image_path) || negb (truthy_str material)); [done|].
  destruct json_data as [td|]; [|done].
  destruct (negb (truthy_list (names_of td "BaseColor"))
            || negb (truthy_list (names_of td (key ch)))); [done|].
  rewrite for_term_scan by done. rewrite scan_spec.
  cbn [found_valid_path channel_path trace initial_locals].
  by destruct (find os_path_exists _) as [p|].
Qed.

Lemma link_channel_outcome ch json_data image_path material place2d udim :
  outcome (link_channel os_path_exists ch json_data image_path material place2d udim)
    = ReturnNone.
Proof.
  unfold link_channel.
  repeat match goal with
         | |- context [if ?b then _ else _] => destruct b
         | |- context [match ?x with Some _ => _ | None => _ end] => destruct x
         end; reflexivity.
Qed.

End Scan.

(** ** The candidates that are probed *)

Section Probed.

Variable os_path_exists : string -> bool.

Lemma probed_prefix cands : probed os_path_exists cands `prefix_of` cands.
Proof.
  induction cands as [|c cands IH]; simpl; [done|].
  destruct (os_path_exists c).
  - by apply prefix_cons, prefix_nil.
  - by apply prefix_cons.
Qed.

Lemma probed_none cands :
  Forall (fun p => os_path_exists p = false) cands ->
  probed os_path_exists cands = cands /\ find os_path_exists cands = None.
Proof.
  induction 1 as [|c cands Hc _ [IH1 IH2]]; simpl; [done|].
  rewrite Hc. by rewrite IH1, IH2.
Qed.

Lemma find_none cands :
  find os_path_exists cands = None ->
  Forall (fun p => os_path_exists p = false) cands.
Proof.
  induction cands as [|c cands IH]; simpl; [constructor|].
  destruct (os_path_exists c) eqn:E; [done|]. intros H. constructor; auto.
Qed.

(** A probed candidate that exists is the last one probed. *)
Lemma probed_hit_last cands i p :
  probed os_path_exists cands !! i = Some p ->
  os_path_exists p = true ->
  length (probed os_path_exists cands) = S i.
Proof.
  revert i. induction cands as [|c cands IH]; intros i; simpl; [done|].
  destruct i as [|i]; simpl.
  - intros [= ->] ->. done.
  - destruct (os_path_exists c); [done|]. intros H1 H2. f_equal. by apply IH.
Qed.

Lemma probed_find cands p :
  find os_path_exists cands = Some p ->
  last (probed os_path_exists cands) = Some p /\ os_path_exists p = true.
Proof.
  induction cands as [|c cands IH]; simpl; [done|].
  destruct (os_path_exists c) eqn:E.
  - intros [= ->]. done.
  - intros H. destruct (IH H) as [IH1 IH2]. split; [|done].
    destruct (probed os_path_exists cands); [done|]. done.
Qed.

End Probed.

Lemma truthy_str_true s : s <> "" -> truthy_str s = true.
Proof.
  unfold truthy_str. intros H. destruct (String.eqb_spec s ""); done.
Qed.

Lemma truthy_list_true {A} (l : list A) : l <> [] -> truthy_list l = true.
Proof. by destruct l. Qed.

(** The calls, the linked path and the warnings of a call, read off its
    candidate sequence. *)
Lemma link_channel_calls fs ch json_data image_path material place2d udim :
  exists_calls
    (events (link_channel fs ch json_data image_path material place2d udim))
  = probed fs (call_candidates ch json_data image_path material)
  /\ linked_path
       (events (link_channel fs ch json_data image_path material place2d udim))
     = find fs (call_candidates ch json_data image_path material)
  /\ length
       (warnings
          (events (link_channel fs ch json_data image_path material place2d udim)))
     = match find fs (call_candidates ch json_data image_path material) with
       | Some _ => 0%nat
       | None => 1%nat
       end.
Proof.
  rewrite link_channel_events. unfold call_candidates.
  destruct (negb (truthy_str image_path) || negb (truthy_str material)); [done|].
  destruct json_data as [td|]; [|done].
  destruct (negb (truthy_list (names_of td "BaseColor"))
            || negb (truthy_list (names_of td (key ch)))); [done|].
  cbv zeta.
  generalize (all_candidates ch (prefer_exr td) (strip_lod image_path)
                (names_of td "BaseColor") (names_of td (key ch))).
  intros l. rewrite exists_calls_app, exists_calls_map.
  split; [destruct (find fs l); simpl; by rewrite app_nil_r|].
  generalize (probed fs l). intros q.
  split; induction q; simpl; by destruct (find fs l).
Qed.

Lemma all_candidates_with ch pe image_path terms replacements :
  all_candidates ch pe image_path terms replacements
  = candidates_with (normalize ch) (image_extensions ch pe) image_path terms
      replacements.
Proof. reflexivity. Qed.

(** The calls of a channel function that passes its guards. *)
Lemma link_channel_calls_with fs ch td image_path material place2d udim :
  image_path <> "" -> material <> "" ->
  names_of td "BaseColor" <> [] -> names_of td (key ch) <> [] ->
  exists_calls
    (events (link_channel fs ch (Some td) image_path material place2d udim))
  = probed fs
      (candidates_with (normalize ch) (image_extensions ch (prefer_exr td))
         (strip_lod image_path) (names_of td "BaseColor") (names_of td (key ch))).
Proof.
  intros Hi Hm Hb Hc.
  destruct (link_channel_calls fs ch (Some td) image_path material place2d udim)
    as [-> _].
  unfold call_candidates.
  rewrite (truthy_str_true _ Hi), (truthy_str_true _ Hm),
    (truthy_list_true _ Hb), (truthy_list_true _ Hc).
  cbn [negb orb]. by rewrite all_candidates_with.
Qed.

(** ** The claims *)

(** C1. With BaseColor = [BaseColor, Albedo] and Roughness = [Roughness], on
    a filesystem that holds only [Rock_Roughness.png], the roughness function
    called on [Rock_BaseColor.tif] asks for [Rock_Roughness.exr], then for
    [Rock_Roughness.jpg], then for [Rock_Roughness.png], and hands that last
    path to the file node; the candidates with the empty LOD suffix come
    first in the candidate sequence. *)
Theorem rock_roughness_scenario :
  events (set_maya_roughness_attributes (only "Rock_Roughness.png")
            (Some rock_dictionary) "Rock_BaseColor.tif"
            "aiStandardSurface1" "Place2dTexture" None)
    = [PathExists "Rock_Roughness.exr"; PathExists "Rock_Roughness.jpg";
       PathExists "Rock_Roughness.png";
       FileTexture "Roughness_File" (Some "Rock_Roughness.png") 0 "Place2dTexture"]
  /\ strip_lod "Rock_BaseColor.tif" = "Rock_BaseColor.tif"
  /\ Re.search_ic "BaseColor" "Rock_BaseColor.tif" = Some (5%nat, 14%nat)
  /\ take 5 (enumerated roughness (Some rock_dictionary) "Rock_BaseColor.tif"
               "aiStandardSurface1")
     = ["Rock_Roughness.exr"; "Rock_Roughness.jpg"; "Rock_Roughness.png";
        "Rock_Roughness.tif"; "Rock_Roughness.tiff"].
Proof.
  repeat split; vm_compute; reflexivity.
Qed.

(** C3. The extension list is [.exr, .jpg, .png, .tif, .tiff] when
    [prefer_exr] is true; when it is false (or absent) [.exr] goes to the end
    and the others keep their order.  Only the displacement function uses
    this policy: its calls of [os.path.exists] go through the candidates
    built with the list that the flag gives.  The roughness, metallic, normal
    and opacity functions go through the candidates built with the list that
    starts with [.exr], whatever the flag is, and so do the same under every
    value of the flag. *)
Theorem extension_policy :
  displacement_extensions (Some true) = [".exr"; ".jpg"; ".png"; ".tif"; ".tiff"]
  /\ displacement_extensions (Some false) = [".jpg"; ".png"; ".tif"; ".tiff"; ".exr"]
  /\ displacement_extensions None = [".jpg"; ".png"; ".tif"; ".tiff"; ".exr"]
  /\ image_extensions displacement = displacement_extensions
  /\ (forall pe,
        image_extensions roughness pe = [".exr"; ".jpg"; ".png"; ".tif"; ".tiff"]
        /\ image_extensions metallic pe = [".exr"; ".jpg"; ".png"; ".tif"; ".tiff"]
        /\ image_extensions normal pe = [".exr"; ".jpg"; ".png"; ".tif"; ".tiff"]
        /\ image_extensions opacity pe = [".exr"; ".jpg"; ".png"; ".tif"; ".tiff"])
  /\ take 1 (enumerated displacement
               (Some (with_prefer_exr (Some true) rock_dictionary_all))
               "Rock_BaseColor.tif" "aiStandardSurface1") = ["Rock_Height.exr"]
  /\ take 1 (enumerated displacement
               (Some (with_prefer_exr (Some false) rock_dictionary_all))
               "Rock_BaseColor.tif" "aiStandardSurface1") = ["Rock_Height.jpg"]
  /\ (forall fs v td image_path material place2d udim,
        set_maya_roughness_attributes fs (Some (with_prefer_exr v td))
          image_path material place2d udim
        = set_maya_roughness_attributes fs (Some td) image_path material place2d udim
        /\ set_maya_metallic_attributes fs (Some (with_prefer_exr v td))
             image_path material place2d udim
           = set_maya_metallic_attributes fs (Some td) image_path material place2d udim
        /\ set_maya_normal_attributes fs (Some (with_prefer_exr v td))
             image_path material place2d udim
           = set_maya_normal_attributes fs (Some td) image_path material place2d udim
        /\ set_maya_opacity_attributes fs (Some (with_prefer_exr v td))
             image_path material place2d udim
           = set_maya_opacity_attributes fs (Some td) image_path material place2d udim)
  /\ (forall fs td image_path material place2d udim,
        image_path <> "" -> material <> "" -> names_of td "BaseColor" <> [] ->
        (names_of td "Roughness" <> [] ->
         exists_calls
           (events (set_maya_roughness_attributes fs (Some td) image_path material
                      place2d udim))
         = probed fs
             (candidates_with OsPath.normpath
                [".exr"; ".jpg"; ".png"; ".tif"; ".tiff"]
                (strip_lod image_path) (names_of td "BaseColor")
                (names_of td "Roughness")))
        /\ (names_of td "Metallic" <> [] ->
            exists_calls
              (events (set_maya_metallic_attributes fs (Some td) image_path material
                         place2d udim))
            = probed fs
                (candidates_with (fun p => p)
                   [".exr"; ".jpg"; ".png"; ".tif"; ".tiff"]
                   (strip_lod image_path) (names_of td "BaseColor")
                   (names_of td "Metallic")))
        /\ (names_of td "Normal" <> [] ->
            exists_calls
              (events (set_maya_normal_attributes fs (Some td) image_path material
                         place2d udim))
            = probed fs
                (candidates_with (fun p => p)
                   [".exr"; ".jpg"; ".png"; ".tif"; ".tiff"]
                   (strip_lod image_path) (names_of td "BaseColor")
                   (names_of td "Normal")))
        /\ (names_of td "Opacity" <> [] ->
            exists_calls
              (events (set_maya_opacity_attributes fs (Some td) image_path material
                         place2d udim))
            = probed fs
                (candidates_with (fun p => p)
                   [".exr"; ".jpg"; ".png"; ".tif"; ".tiff"]
                   (strip_lod image_path) (names_of td "BaseColor")
                   (names_of td "Opacity")))
        /\ (names_of td "Height" <> [] ->
            exists_calls
              (events (set_maya_displacement_attributes fs (Some td) image_path
                         material place2d udim))
            = probed fs
                (candidates_with (fun p => p)
                   (displacement_extensions (prefer_exr td))
                   (strip_lod image_path) (names_of td "BaseColor")
                   (names_of td "Height")))).
Proof.
  split; [reflexivity|]. split; [reflexivity|]. split; [reflexivity|].
  split; [reflexivity|].
  split; [intros pe; repeat split|].
  split; [vm_compute; reflexivity|]. split; [vm_compute; reflexivity|].
  split.
  - intros fs v td image_path material place2d udim.
    repeat split;
      unfold set_maya_roughness_attributes, set_maya_metallic_attributes,
        set_maya_normal_attributes, set_maya_opacity_attributes, link_channel;
      rewrite ?for_term_scan by done; reflexivity.
  - intros fs td image_path material place2d udim Hi Hm Hb.
    repeat split; intros Hc;
      unfold set_maya_roughness_attributes, set_maya_metallic_attributes,
        set_maya_normal_attributes, set_maya_opacity_attributes,
        set_maya_displacement_attributes;
      by rewrite link_channel_calls_with.
Qed.

Lemma extension_policy_witness :
  "Rock_BaseColor.tif" <> "" /\ "aiStandardSurface1" <> ""
  /\ exists_calls
       (events (set_maya_normal_attributes (fun _ => false)
                  (Some (with_prefer_exr (Some false)
                           {| categories :=
                                <["Normal" := [entry "Normal"]]>
                                  (categories rock_dictionary);
                              prefer_exr := None; udim := None |}))
                  "Rock_BaseColor.tif" "aiStandardSurface1" "Place2dTexture" None))
     = probed (fun _ => false)
         (candidates_with (fun p => p) [".exr"; ".jpg"; ".png"; ".tif"; ".tiff"]
            (strip_lod "Rock_BaseColor.tif") ["BaseColor"; "Albedo"] ["Normal"]).
Proof.
  assert (H1 : "Rock_BaseColor.tif" <> "") by discriminate.
  assert (H2 : "aiStandardSurface1" <> "") by discriminate.
  split; [exact H1|]. split; [exact H2|].
  refine (proj1 (proj2 (proj2
            (proj2 (proj2 (proj2 (proj2 (proj2 (proj2 (proj2 (proj2
               extension_policy)))))))
               (fun _ => false)
               (with_prefer_exr (Some false)
                  {| categories :=
                       <["Normal" := [entry "Normal"]]> (categories rock_dictionary);
                     prefer_exr := None; udim := None |})
               "Rock_BaseColor.tif" "aiStandardSurface1" "Place2dTexture" None
               H1 H2 _))) _).
  - vm_compute. discriminate.
  - vm_compute. discriminate.
Defined.

(** C5. For every channel, dictionary and filesystem, a call on
    [Rock_BaseColor_LOD1.png] and a call on [Rock_BaseColor.png] have the
    same candidate sequence and do the same: the same calls of
    [os.path.exists] and the same result. *)
Theorem lod_suffix_is_stripped :
  forall fs ch json_data material place2d udim,
    strip_lod "Rock_BaseColor_LOD1.png" = strip_lod "Rock_BaseColor.png"
    /\ enumerated ch json_data "Rock_BaseColor_LOD1.png" material
       = enumerated ch json_data "Rock_BaseColor.png" material
    /\ link_channel fs ch json_data "Rock_BaseColor_LOD1.png" material place2d udim
       = link_channel fs ch json_data "Rock_BaseColor.png" material place2d udim.
Proof.
  intros fs ch json_data material place2d udim.
  assert (E : strip_lod "Rock_BaseColor_LOD1.png" = strip_lod "Rock_BaseColor.png")
    by (vm_compute; reflexivity).
  split; [exact E|].
  unfold enumerated, link_channel. rewrite E. done.
Qed.

(** C6, as the code has it. When the document has no BaseColor names or no
    names for the channel, a call with an image path and a material shows the
    warning "No valid texture terms found in the JSON data." and returns
    [None]: it asks the filesystem nothing and makes no node.  Nothing is
    raised and the caller gets the same [None] as from every other call. *)
Theorem missing_terms_warn_and_return :
  forall fs ch td image_path material place2d udim,
    image_path <> "" -> material <> "" ->
    names_of td "BaseColor" = [] \/ names_of td (key ch) = [] ->
    link_channel fs ch (Some td) image_path material place2d udim
      = {| events := [Warning "No valid texture terms found in the JSON data."];
           outcome := ReturnNone |}.
Proof.
  intros fs ch td image_path material place2d udim Hi Hm Hterms.
  unfold link_channel.
  rewrite (truthy_str_true _ Hi), (truthy_str_true _ Hm). simpl.
  destruct Hterms as [-> | ->]; simpl; [done|].
  by rewrite orb_true_r.
Qed.

Lemma missing_terms_warn_and_return_witness :
  "Rock_BaseColor.tif" <> "" /\ "aiStandardSurface1" <> ""
  /\ (names_of rock_dictionary "BaseColor" = []
      \/ names_of rock_dictionary (key metallic) = [])
  /\ link_channel (only "Rock_Roughness.png") metallic (Some rock_dictionary)
       "Rock_BaseColor.tif" "aiStandardSurface1" "Place2dTexture" None
     = {| events := [Warning "No valid texture terms found in the JSON data."];
          outcome := ReturnNone |}.
Proof.
  split; [discriminate|]. split; [discriminate|].
  split; [right; vm_compute; reflexivity|].
  apply missing_terms_warn_and_return;
    [discriminate | discriminate | right; vm_compute; reflexivity].
Defined.

(** C6 as stated fails: with an empty Metallic list the metallic call does
    not end in a ConfigurationError; it returns [None], as the roughness call
    that found its file does, and the caller cannot tell the two apart. *)
Lemma missing_terms_not_raised :
  names_of rock_dictionary "Metallic" = []
  /\ outcome (set_maya_metallic_attributes (only "Rock_Roughness.png")
                (Some rock_dictionary) "Rock_BaseColor.tif"
                "aiStandardSurface1" "Place2dTexture" None)
     <> Raise "ConfigurationError"
  /\ outcome (set_maya_metallic_attributes (only "Rock_Roughness.png")
                (Some rock_dictionary) "Rock_BaseColor.tif"
                "aiStandardSurface1" "Place2dTexture" None)
     = outcome (set_maya_roughness_attributes (only "Rock_Roughness.png")
                  (Some rock_dictionary) "Rock_BaseColor.tif"
                  "aiStandardSurface1" "Place2dTexture" None).
Proof.
  repeat split; vm_compute; done.
Qed.

(** C7. When none of the candidates of a call exists, the call returns
    [None] without raising, makes no file node, and ends with one warning
    after having asked for every candidate in order. *)
Theorem no_file_is_not_an_error :
  forall fs ch json_data image_path material place2d udim,
    Forall (fun p => fs p = false)
      (call_candidates ch json_data image_path material) ->
    outcome (link_channel fs ch json_data image_path material place2d udim)
      = ReturnNone
    /\ linked_path
         (events (link_channel fs ch json_data image_path material place2d udim))
       = None
    /\ (exists msg,
          events (link_channel fs ch json_data image_path material place2d udim)
          = map PathExists (call_candidates ch json_data image_path material)
              ++ [Warning msg])
    /\ (forall td,
          json_data = Some td -> image_path <> "" -> material <> "" ->
          names_of td "BaseColor" <> [] -> names_of td (key ch) <> [] ->
          warnings
            (events (link_channel fs ch json_data image_path material place2d udim))
          = [not_found ch]).
Proof.
  intros fs ch json_data image_path material place2d udim Hnone.
  split; [apply link_channel_outcome|].
  cut (forall A B C : Prop, C -> A /\ B -> A /\ B /\ C); [|tauto].
  intros Hcut. apply Hcut; clear Hcut.
  { intros td -> Hi Hm Hb Hc. rewrite link_channel_events.
    destruct (probed_none fs _ Hnone) as [Hp Hf]. cbv zeta. rewrite Hp, Hf.
    rewrite (truthy_str_true _ Hi), (truthy_str_true _ Hm),
      (truthy_list_true _ Hb), (truthy_list_true _ Hc).
    cbn [negb orb].
    generalize (call_candidates ch (Some td) image_path material).
    intros l. induction l; simpl; done. }
  rewrite link_channel_events.
  destruct (probed_none fs _ Hnone) as [Hp Hf].
  unfold call_candidates in *.
  destruct (negb (truthy_str image_path) || negb (truthy_str material));
    [split; eauto|].
  destruct json_data as [td|]; [|split; eauto].
  destruct (negb (truthy_list (names_of td "BaseColor"))
            || negb (truthy_list (names_of td (key ch)))); [split; eauto|].
  cbv zeta. rewrite Hp, Hf. split; [|eauto].
  generalize (all_candidates ch (prefer_exr td) (strip_lod image_path)
                (names_of td "BaseColor") (names_of td (key ch))).
  intros l. induction l; simpl; done.
Qed.

Lemma no_file_is_not_an_error_witness :
  Forall (fun p => only "Rock_Metallic.png" p = false)
    (call_candidates roughness (Some rock_dictionary) "Rock_BaseColor.tif"
       "aiStandardSurface1")
  /\ outcome (link_channel (only "Rock_Metallic.png") roughness
                (Some rock_dictionary) "Rock_BaseColor.tif"
                "aiStandardSurface1" "Place2dTexture" None) = ReturnNone
  /\ linked_path
       (events (link_channel (only "Rock_Metallic.png") roughness
                  (Some rock_dictionary) "Rock_BaseColor.tif"
                  "aiStandardSurface1" "Place2dTexture" None)) = None.
Proof.
  assert (H : Forall (fun p => only "Rock_Metallic.png" p = false)
                (call_candidates roughness (Some rock_dictionary)
                   "Rock_BaseColor.tif" "aiStandardSurface1")).
  { vm_compute. repeat constructor. }
  split; [exact H|].
  destruct (no_file_is_not_an_error (only "Rock_Metallic.png") roughness
              (Some rock_dictionary) "Rock_BaseColor.tif" "aiStandardSurface1"
              "Place2dTexture" None H) as (H1 & H2 & _).
  split; [exact H1 | exact H2].
Defined.

(** C8. The calls of [os.path.exists] of a call are an initial segment of
    its candidate sequence, one call per candidate and in candidate order; a
    candidate that exists is the last one asked for, and it is the one handed
    to the file node; when no node is made every candidate was asked for. *)
Theorem probes_stop_at_first_hit :
  forall fs ch json_data image_path material place2d udim,
    exists_calls
      (events (link_channel fs ch json_data image_path material place2d udim))
      `prefix_of` call_candidates ch json_data image_path material
    /\ (forall (i : nat) p,
          exists_calls
            (events (link_channel fs ch json_data image_path material place2d udim))
            !! i = Some p ->
          fs p = true ->
          length
            (exists_calls
               (events (link_channel fs ch json_data image_path material place2d udim)))
          = S i)
    /\ (forall p,
          linked_path
            (events (link_channel fs ch json_data image_path material place2d udim))
          = Some p ->
          fs p = true
          /\ last
               (exists_calls
                  (events (link_channel fs ch json_data image_path material place2d udim)))
             = Some p)
    /\ (linked_path
          (events (link_channel fs ch json_data image_path material place2d udim))
        = None ->
        exists_calls
          (events (link_channel fs ch json_data image_path material place2d udim))
        = call_candidates ch json_data image_path material).
Proof.
  intros fs ch json_data image_path material place2d udim.
  assert (E : exists_calls
                (events (link_channel fs ch json_data image_path material place2d udim))
              = probed fs (call_candidates ch json_data image_path material)
              /\ linked_path
                   (events (link_channel fs ch json_data image_path material place2d udim))
                 = find fs (call_candidates ch json_data image_path material)).
  { rewrite link_channel_events. unfold call_candidates.
    destruct (negb (truthy_str image_path) || negb (truthy_str material)); [done|].
    destruct json_data as [td|]; [|done].
    destruct (negb (truthy_list (names_of td "BaseColor"))
              || negb (truthy_list (names_of td (key ch)))); [done|].
    cbv zeta.
    generalize (all_candidates ch (prefer_exr td) (strip_lod image_path)
                  (names_of td "BaseColor") (names_of td (key ch))).
    intros l. rewrite exists_calls_app, exists_calls_map.
    split.
    - destruct (find fs l); simpl; by rewrite app_nil_r.
    - generalize (probed fs l). intros q.
      induction q; simpl; [by destruct (find fs l)|done]. }
  destruct E as [-> ->].
  split; [apply probed_prefix|].
  split; [intros i p; apply probed_hit_last|].
  split.
  - intros p Hp. destruct (probed_find fs _ _ Hp). done.
  - intros Hn. apply probed_none. by apply find_none.
Qed.

Lemma probes_stop_at_first_hit_witness :
  linked_path
    (events (link_channel (only "Rock_Roughness.png") roughness
               (Some rock_dictionary) "Rock_BaseColor.tif"
               "aiStandardSurface1" "Place2dTexture" None))
  = Some "Rock_Roughness.png"
  /\ only "Rock_Roughness.png" "Rock_Roughness.png" = true
  /\ last
       (exists_calls
          (events (link_channel (only "Rock_Roughness.png") roughness
                     (Some rock_dictionary) "Rock_BaseColor.tif"
                     "aiStandardSurface1" "Place2dTexture" None)))
     = Some "Rock_Roughness.png".
Proof.
  assert (H : linked_path
                (events (link_channel (only "Rock_Roughness.png") roughness
                           (Some rock_dictionary) "Rock_BaseColor.tif"
                           "aiStandardSurface1" "Place2dTexture" None))
              = Some "Rock_Roughness.png") by (vm_compute; reflexivity).
  split; [exact H|].
  exact (proj1 (proj2 (proj2 (probes_stop_at_first_hit
                                (only "Rock_Roughness.png") roughness
                                (Some rock_dictionary) "Rock_BaseColor.tif"
                                "aiStandardSurface1" "Place2dTexture" None)))
           "Rock_Roughness.png" H).
Defined.

(** ** The order of the candidates *)

Section Order.

Variable fs : string -> bool.

Lemma scan_none_app l1 l2 :
  Forall (fun p => fs p = false) l1 ->
  find fs (l1 ++ l2) = find fs l2
  /\ probed fs (l1 ++ l2) = l1 ++ probed fs l2.
Proof.
  induction 1 as [|c l1 Hc _ [IH1 IH2]]; simpl; [done|].
  rewrite Hc. by rewrite IH1, IH2.
Qed.

Lemma scan_hit_app l1 l2 :
  Exists (fun p => fs p = true) l1 ->
  find fs (l1 ++ l2) = find fs l1
  /\ probed fs (l1 ++ l2) = probed fs l1
  /\ is_Some (find fs l1).
Proof.
  induction 1 as [c l1 Hc | c l1 _ (IH1 & IH2 & IH3)]; simpl.
  - rewrite Hc. eauto.
  - destruct (fs c); [eauto|]. by rewrite IH1, IH2.
Qed.

Lemma Forall_flat_map_inner {A} (f : A -> list string) (P : string -> Prop) l :
  Forall (fun t => Forall P (f t)) l -> Forall P (flat_map f l).
Proof.
  induction 1; simpl; [constructor|]. by apply Forall_app.
Qed.

End Order.

(** The offset that [re.search] returns is the leftmost one at which the
    term matches. *)
Lemma search_from_leftmost t s i k :
  Re.search_from t s i = Some k ->
  exists d : nat,
    k = (i + d)%nat
    /\ Re.match_here_ic t (Py.drop d s) = true
    /\ forall j : nat, (j < d)%nat -> Re.match_here_ic t (Py.drop j s) = false.
Proof.
  revert i. induction s as [|c s IH]; intros i; simpl.
  - destruct (Re.match_here_ic t "") eqn:E; [|done].
    intros [= <-]. exists 0%nat. repeat split; [lia | done | lia].
  - destruct (Re.match_here_ic t (String c s)) eqn:E.
    + intros [= <-]. exists 0%nat. repeat split; [lia | done | lia].
    + intros H. destruct (IH _ H) as (d & -> & Hd & Hlt).
      exists (S d). repeat split; [lia | done |].
      intros [|j] Hj; [done|]. apply Hlt. lia.
Qed.

Lemma search_ic_leftmost term s m :
  Re.search_ic term s = Some m ->
  m.2 = (m.1 + String.length term)%nat
  /\ Re.match_here_ic term (Py.drop m.1 s) = true
  /\ forall j : nat, (j < m.1)%nat -> Re.match_here_ic term (Py.drop j s) = false.
Proof.
  unfold Re.search_ic.
  destruct (Re.search_from term s 0) as [k|] eqn:E; [|done].
  intros [= <-]. destruct (search_from_leftmost _ _ _ _ E) as (d & -> & H1 & H2).
  done.
Qed.

(** C2, as the code has it. In a call that passes its guards the candidates
    come in four nested loops: the base-colour terms in dictionary order,
    each one that occurs in the path giving a block; inside a block the
    replacement terms in dictionary order, then the LOD suffixes, then the
    extensions.  A candidate is the path with the span of the term replaced
    by the replacement term and the LOD suffix, passed through the
    normalisation of the channel ([os.path.normpath] for roughness, nothing
    for the others), with its extension replaced.  The calls of
    [os.path.exists] follow this sequence from its start. *)
Theorem candidates_in_nested_order :
  forall fs ch td image_path material place2d udim,
    image_path <> "" -> material <> "" ->
    names_of td "BaseColor" <> [] -> names_of td (key ch) <> [] ->
    enumerated ch (Some td) image_path material
    = flat_map (fun term =>
        match Re.search_ic term (strip_lod image_path) with
        | Some m =>
            flat_map (fun replacement =>
              flat_map (fun lod =>
                map (fun ext =>
                       (OsPath.splitext
                          (normalize ch
                             (Py.take m.1 (strip_lod image_path) +:+ replacement
                                +:+ lod +:+ Py.drop m.2 (strip_lod image_path)))).1
                       +:+ ext)
                    (image_extensions ch (prefer_exr td)))
                lod_levels)
              (names_of td (key ch))
        | None => []
        end) (names_of td "BaseColor")
    /\ exists_calls
         (events (link_channel fs ch (Some td) image_path material place2d udim))
         `prefix_of` enumerated ch (Some td) image_path material
    /\ normalize roughness = OsPath.normpath
    /\ (forall p, normalize metallic p = p /\ normalize displacement p = p
                  /\ normalize normal p = p /\ normalize opacity p = p).
Proof.
  intros fs ch td image_path material place2d udim Hi Hm Hb Hc.
  assert (E : forall fs',
             exists_calls
               (events (link_channel fs' ch (Some td) image_path material place2d udim))
             = probed fs'
                 (all_candidates ch (prefer_exr td) (strip_lod image_path)
                    (names_of td "BaseColor") (names_of td (key ch)))).
  { intros fs'. rewrite link_channel_events. unfold call_candidates.
    rewrite (truthy_str_true _ Hi), (truthy_str_true _ Hm),
      (truthy_list_true _ Hb), (truthy_list_true _ Hc).
    cbn [negb orb]. cbv zeta.
    rewrite exists_calls_app, exists_calls_map.
    destruct (find fs' _); simpl; by rewrite app_nil_r. }
  assert (En : enumerated ch (Some td) image_path material
               = all_candidates ch (prefer_exr td) (strip_lod image_path)
                   (names_of td "BaseColor") (names_of td (key ch))).
  { unfold enumerated.
    assert (E0 : forall fs' p2 u2,
               exists_calls
                 (events (link_channel fs' ch (Some td) image_path material p2 u2))
               = probed fs'
                   (all_candidates ch (prefer_exr td) (strip_lod image_path)
                      (names_of td "BaseColor") (names_of td (key ch)))).
    { intros fs' p2 u2. rewrite link_channel_events. unfold call_candidates.
      rewrite (truthy_str_true _ Hi), (truthy_str_true _ Hm),
        (truthy_list_true _ Hb), (truthy_list_true _ Hc).
      cbn [negb orb]. cbv zeta.
      rewrite exists_calls_app, exists_calls_map.
      destruct (find fs' _); simpl; by rewrite app_nil_r. }
    rewrite E0. apply probed_none.
    generalize (all_candidates ch (prefer_exr td) (strip_lod image_path)
                  (names_of td "BaseColor") (names_of td (key ch))).
    intros l. induction l; constructor; done. }
  split; [rewrite En; reflexivity|].
  split; [rewrite E, En; apply probed_prefix|].
  split; [reflexivity|].
  intros p. repeat split.
Qed.

Lemma candidates_in_nested_order_witness :
  "Rock_Albedo_BaseColor.png" <> "" /\ "aiStandardSurface1" <> ""
  /\ names_of rock_dictionary_all "BaseColor" <> []
  /\ names_of rock_dictionary_all (key metallic) <> []
  /\ exists_calls
       (events (link_channel (only "Rock_Metallic_BaseColor.png") metallic
                  (Some rock_dictionary_all) "Rock_Albedo_BaseColor.png"
                  "aiStandardSurface1" "Place2dTexture" None))
       `prefix_of` enumerated metallic (Some rock_dictionary_all)
                     "Rock_Albedo_BaseColor.png" "aiStandardSurface1".
Proof.
  assert (H1 : "Rock_Albedo_BaseColor.png" <> "") by discriminate.
  assert (H2 : "aiStandardSurface1" <> "") by discriminate.
  assert (H3 : names_of rock_dictionary_all "BaseColor" <> [])
    by (vm_compute; discriminate).
  assert (H4 : names_of rock_dictionary_all (key metallic) <> [])
    by (vm_compute; discriminate).
  repeat (split; [assumption|]).
  exact (proj1 (proj2 (candidates_in_nested_order
                         (only "Rock_Metallic_BaseColor.png") metallic
                         rock_dictionary_all "Rock_Albedo_BaseColor.png"
                         "aiStandardSurface1" "Place2dTexture" None H1 H2 H3 H4))).
Defined.

(** C2 as stated fails in two ways.  When two base-colour terms occur in the
    path, the candidates of the second term follow those of the first: the
    metallic call on [Rock_Albedo_BaseColor.png] has forty candidates, the
    twenty-first being [Rock_Metallic_BaseColor.exr], where one match gives
    twenty.  And the roughness function normalises the path before it
    replaces the extension: on [tex//Rock_BaseColor.png] its first candidate
    is [tex/Rock_Roughness.exr], not [tex//Rock_Roughness.exr]. *)
Lemma nested_order_counterexample :
  (enumerated metallic (Some rock_dictionary_all) "Rock_Albedo_BaseColor.png"
     "aiStandardSurface1" !! 20%nat = Some "Rock_Metallic_BaseColor.exr"
   /\ Spec.candidates base_extensions "Rock_Albedo_BaseColor.png"
        (names_of rock_dictionary_all "BaseColor")
        (names_of rock_dictionary_all "Metallic") !! 20%nat = None
   /\ enumerated metallic (Some rock_dictionary_all) "Rock_Albedo_BaseColor.png"
        "aiStandardSurface1"
      <> Spec.candidates base_extensions "Rock_Albedo_BaseColor.png"
           (names_of rock_dictionary_all "BaseColor")
           (names_of rock_dictionary_all "Metallic"))
  /\ (enumerated roughness (Some rock_dictionary) "tex//Rock_BaseColor.png"
        "aiStandardSurface1" !! 0%nat = Some "tex/Rock_Roughness.exr"
      /\ Spec.candidates base_extensions "tex//Rock_BaseColor.png"
           (names_of rock_dictionary "BaseColor")
           (names_of rock_dictionary "Roughness") !! 0%nat
         = Some "tex//Rock_Roughness.exr"
      /\ enumerated roughness (Some rock_dictionary) "tex//Rock_BaseColor.png"
           "aiStandardSurface1"
         <> Spec.candidates base_extensions "tex//Rock_BaseColor.png"
              (names_of rock_dictionary "BaseColor")
              (names_of rock_dictionary "Roughness")).
Proof.
  repeat split; try (vm_compute; reflexivity);
    intros H; vm_compute in H; discriminate H.
Qed.

(** C4, as the code has it. The base-colour terms are tried in dictionary
    order, whatever their positions in the path: when no candidate of the
    terms before [term] exists and some candidate of [term] does, the search
    stops in the block of [term] with its first existing candidate, after
    having asked for every candidate of the earlier terms; the terms after
    [term] play no part.  So a later term is used when the earlier ones give
    no existing file.  The span of a term is its leftmost occurrence. *)
Theorem base_colour_terms_in_dictionary_order :
  forall fs ch pe image_path earlier term later replacements,
    Forall (fun t =>
              Forall (fun p => fs p = false)
                (term_candidates ch pe image_path replacements t)) earlier ->
    Exists (fun p => fs p = true)
      (term_candidates ch pe image_path replacements term) ->
    found_valid_path
      (for_term fs ch pe image_path (earlier ++ term :: later) replacements
         initial_locals) = true
    /\ channel_path
         (for_term fs ch pe image_path (earlier ++ term :: later) replacements
            initial_locals)
       = find fs (term_candidates ch pe image_path replacements term)
    /\ exists_calls
         (trace
            (for_term fs ch pe image_path (earlier ++ term :: later) replacements
               initial_locals))
       = flat_map (term_candidates ch pe image_path replacements) earlier
           ++ probed fs (term_candidates ch pe image_path replacements term)
    /\ exists m,
         Re.search_ic term image_path = Some m
         /\ m.2 = (m.1 + String.length term)%nat
         /\ Re.match_here_ic term (Py.drop m.1 image_path) = true
         /\ forall j : nat,
              (j < m.1)%nat -> Re.match_here_ic term (Py.drop j image_path) = false.
Proof.
  intros fs ch pe image_path earlier term later replacements Hearlier Hterm.
  rewrite for_term_scan by done. rewrite scan_spec.
  cbn [found_valid_path channel_path trace initial_locals app].
  unfold all_candidates. rewrite flat_map_app. cbn [flat_map].
  apply Forall_flat_map_inner in Hearlier.
  destruct (scan_none_app fs _
              (term_candidates ch pe image_path replacements term
                 ++ flat_map (term_candidates ch pe image_path replacements) later)
              Hearlier) as [-> ->].
  destruct (scan_hit_app fs _
              (flat_map (term_candidates ch pe image_path replacements) later)
              Hterm) as (-> & -> & [p Hp]).
  rewrite Hp, exists_calls_map. repeat split.
  unfold term_candidates in Hterm.
  destruct (Re.search_ic term image_path) as [m|] eqn:Em.
  - exists m. split; [done|]. by apply search_ic_leftmost.
  - by apply Exists_nil in Hterm.
Qed.

Lemma base_colour_terms_in_dictionary_order_witness :
  Forall (fun t =>
            Forall (fun p => only "Rock_Metallic_BaseColor.png" p = false)
              (term_candidates metallic None "Rock_Albedo_BaseColor.png"
                 ["Metallic"] t)) ["BaseColor"]
  /\ Exists (fun p => only "Rock_Metallic_BaseColor.png" p = true)
       (term_candidates metallic None "Rock_Albedo_BaseColor.png"
          ["Metallic"] "Albedo")
  /\ channel_path
       (for_term (only "Rock_Metallic_BaseColor.png") metallic None
          "Rock_Albedo_BaseColor.png" (["BaseColor"] ++ "Albedo" :: [])
          ["Metallic"] initial_locals)
     = find (only "Rock_Metallic_BaseColor.png")
         (term_candidates metallic None "Rock_Albedo_BaseColor.png"
            ["Metallic"] "Albedo").
Proof.
  assert (H1 : Forall (fun t =>
                 Forall (fun p => only "Rock_Metallic_BaseColor.png" p = false)
                   (term_candidates metallic None "Rock_Albedo_BaseColor.png"
                      ["Metallic"] t)) ["BaseColor"]).
  { constructor; [|constructor]. vm_compute. repeat constructor. }
  assert (H2 : Exists (fun p => only "Rock_Metallic_BaseColor.png" p = true)
                 (term_candidates metallic None "Rock_Albedo_BaseColor.png"
                    ["Metallic"] "Albedo")).
  { vm_compute. do 2 apply Exists_cons_tl. apply Exists_cons_hd. reflexivity. }
  split; [exact H1|]. split; [exact H2|].
  exact (proj1 (proj2 (base_colour_terms_in_dictionary_order
                         (only "Rock_Metallic_BaseColor.png") metallic None
                         "Rock_Albedo_BaseColor.png" ["BaseColor"] "Albedo" []
                         ["Metallic"] H1 H2))).
Defined.

(** C4 as stated fails. BaseColor comes before Albedo in the dictionary and
    both occur in [Rock_Albedo_BaseColor.png], so BaseColor is the term of
    the claim; yet on a filesystem that holds only
    [Rock_Metallic_BaseColor.png] the metallic call links that file, which is
    the path with Albedo replaced and is none of the candidates built from
    the occurrence of BaseColor. *)
Lemma later_term_is_used :
  Spec.find_term "Rock_Albedo_BaseColor.png" (names_of rock_dictionary_all "BaseColor")
    = Some ("BaseColor", 12%nat, 21%nat)
  /\ Re.search_ic "Albedo" "Rock_Albedo_BaseColor.png" = Some (5%nat, 11%nat)
  /\ linked_path
       (events (set_maya_metallic_attributes (only "Rock_Metallic_BaseColor.png")
                  (Some rock_dictionary_all) "Rock_Albedo_BaseColor.png"
                  "aiStandardSurface1" "Place2dTexture" None))
     = Some "Rock_Metallic_BaseColor.png"
  /\ ~ In "Rock_Metallic_BaseColor.png"
         (Spec.generate "Rock_Albedo_BaseColor.png" (12%nat, 21%nat)
            (names_of rock_dictionary_all "Metallic") lod_levels base_extensions).
Proof.
  repeat split; try (vm_compute; reflexivity).
  intros H. vm_compute in H.
  repeat (destruct H as [H | H]; [discriminate H|]). exact H.
Qed.

(** ** Substrings without regard to case *)

Lemma append_cons a s t : String a s +:+ t = String a (s +:+ t).
Proof. reflexivity. Qed.

Lemma lower_append a b : Py.lower (a +:+ b) = Py.lower a +:+ Py.lower b.
Proof.
  induction a as [|c a IH]; [done|].
  rewrite append_cons. cbn [Py.lower]. by rewrite IH, append_cons.
Qed.

Lemma lower_append_inv s a b :
  Py.lower s = a +:+ b ->
  exists s1 s2, s = s1 +:+ s2 /\ Py.lower s1 = a /\ Py.lower s2 = b.
Proof.
  revert s. induction a as [|c a IH]; intros s H.
  - by exists "", s.
  - destruct s as [|x s]; [done|].
    rewrite append_cons in H. cbn [Py.lower] in H. injection H as Hx Hs.
    destruct (IH _ Hs) as (s1 & s2 & -> & H1 & H2).
    exists (String x s1), s2. cbn [Py.lower]. by rewrite Hx, H1.
Qed.

Lemma startswith_spec t s :
  Py.startswith t s = true <-> exists r, s = t +:+ r.
Proof.
  revert s. induction t as [|a t IH]; intros s.
  - split; [by exists s|done].
  - destruct s as [|b s]; cbn [Py.startswith].
    + split; [done|]. by intros [r Hr].
    + destruct (Ascii.eqb_spec a b) as [->|Hne].
      * rewrite IH. split; intros [r Hr]; exists r.
        -- by rewrite append_cons, Hr.
        -- rewrite append_cons in Hr. by injection Hr.
      * split; [done|]. intros [r Hr]. rewrite append_cons in Hr.
        injection Hr as Hab _. by destruct Hne.
Qed.

Lemma contains_unfold t s :
  Py.contains t s =
    if Py.startswith t s then true
    else match s with
         | EmptyString => false
         | String _ s' => Py.contains t s'
         end.
Proof. by destruct s. Qed.

Lemma contains_spec t s :
  Py.contains t s = true <-> exists pre post, s = pre +:+ t +:+ post.
Proof.
  split.
  - induction s as [|c s IH]; rewrite contains_unfold;
      destruct (Py.startswith t _) eqn:E.
    + intros _. apply startswith_spec in E as [r ->]. by exists "", r.
    + done.
    + intros _. apply startswith_spec in E as [r ->]. by exists "", r.
    + intros H. destruct (IH H) as (pre & post & ->).
      by exists (String c pre), post.
  - intros (pre & post & ->). induction pre as [|c pre IH].
    + rewrite contains_unfold.
      assert (E : Py.startswith t ("" +:+ t +:+ post) = true)
        by (apply startswith_spec; by exists post).
      by rewrite E.
    + rewrite contains_unfold. destruct (Py.startswith t _); [done|].
      by rewrite append_cons.
Qed.




(** ** The add operation of the naming dictionary *)

Lemma names_of_extend_category texture_type texture_objects td :
  names_of (extend_category texture_type texture_objects td) texture_type
  = names_of td texture_type ++ map name texture_objects.
Proof.
  unfold names_of, extend_category. cbn [categories].
  destruct (categories td !! texture_type) as [l|] eqn:E;
    rewrite lookup_insert_eq; cbn [default]; [apply map_app|done].
Qed.

Lemma names_of_extend_category_ne texture_type texture_objects td other :
  texture_type <> other ->
  names_of (extend_category texture_type texture_objects td) other
  = names_of td other.
Proof.
  intros Hne. unfold names_of, extend_category. cbn [categories].
  by destruct (categories td !! texture_type); rewrite lookup_insert_ne.
Qed.

Lemma name_in_spec n existing : name_in n existing = true <-> In n existing.
Proof.
  unfold name_in. rewrite existsb_exists. split.
  - intros (x & Hx & E). by apply String.eqb_eq in E as ->.
  - intros H. exists n. split; [done|]. apply String.eqb_refl.
Qed.

Lemma no_duplicates_spec existing l :
  truthy_list (List.filter (fun n => name_in n existing) l) = false <->
  forall n, In n l -> ~ In n existing.
Proof.
  induction l as [|x l IH]; simpl; [done|].
  destruct (name_in x existing) eqn:E; simpl.
  - split; [done|]. intros H. destruct (H x); [by left|]. by apply name_in_spec.
  - rewrite IH. split.
    + intros H n [<-|Hn]; [|by apply H].
      rewrite <- name_in_spec. by rewrite E.
    + intros H n Hn. apply H. by right.
Qed.

(** A batch with a name that the category already holds is rejected as a
    whole: the stored document stays as it is. *)
Lemma add_texture_name_rejects text selected_tab texture_type stored n :
  texture_type_of_tab selected_tab = Some texture_type ->
  In n (submitted text) -> In n (names_of stored texture_type) ->
  (add_texture_name text selected_tab stored).1 = stored.
Proof.
  intros Htab Hn Hex. unfold add_texture_name.
  destruct (truthy_str (Py.strip text)); [|done]. rewrite Htab. cbv zeta.
  destruct (truthy_list (List.filter _ _)) eqn:E; [done|].
  by destruct (proj1 (no_duplicates_spec _ _) E n).
Qed.

(** A batch none of whose names is in the category is appended as a whole,
    each name unlocked, and the other categories and the flags stay. *)
Lemma add_texture_name_appends text selected_tab texture_type stored :
  Py.strip text <> "" ->
  texture_type_of_tab selected_tab = Some texture_type ->
  (forall n, In n (submitted text) -> ~ In n (names_of stored texture_type)) ->
  (add_texture_name text selected_tab stored).1
  = extend_category texture_type
      (map (fun n => {| name := n; locked := false |}) (submitted text)) stored
  /\ names_of (add_texture_name text selected_tab stored).1 texture_type
     = names_of stored texture_type ++ submitted text.
Proof.
  intros Htext Htab Hfresh. unfold add_texture_name.
  rewrite (truthy_str_true _ Htext), Htab. cbv zeta.
  apply (proj2 (no_duplicates_spec _ _)) in Hfresh.
  unfold submitted in Hfresh. rewrite Hfresh.
  cbn [fst]. split; [done|].
  rewrite names_of_extend_category, map_map. cbn [name]. by rewrite map_id.
Qed.

(** Unique names stay unique when the batch itself has no repeated name. *)
Lemma add_texture_name_unique text selected_tab texture_type stored :
  texture_type_of_tab selected_tab = Some texture_type ->
  NoDup (submitted text) ->
  Spec.unique_names stored texture_type ->
  Spec.unique_names (add_texture_name text selected_tab stored).1 texture_type.
Proof.
  intros Htab Hbatch Hstored. unfold Spec.unique_names.
  destruct (String.eqb_spec (Py.strip text) "") as [E|Htext].
  { unfold add_texture_name, truthy_str. by rewrite E. }
  destruct (truthy_list
              (List.filter (fun n => name_in n (names_of stored texture_type))
                 (submitted text))) eqn:E.
  - unfold add_texture_name. rewrite (truthy_str_true _ Htext), Htab. cbv zeta.
    unfold submitted in E. by rewrite E.
  - pose proof (proj1 (no_duplicates_spec _ _) E) as E'.
    destruct (add_texture_name_appends _ _ _ stored Htext Htab E') as [_ ->].
    apply NoDup_app. repeat split; [done| |done].
    intros n Hn Hn'. apply list_elem_of_In in Hn, Hn'. by destruct (E' n).
Qed.

(** C9, on the code. A name written twice in one batch passes the duplicate
    check, which looks only at the stored names, and is stored twice: after
    adding the text [Foo, Foo] to a BaseColor list with unique names the list
    holds [Foo] twice. *)
Theorem add_texture_name_repeated_in_batch :
  Spec.unique_names rock_dictionary "BaseColor"
  /\ submitted "Foo, Foo" = ["Foo"; "Foo"]
  /\ names_of (add_texture_name "Foo, Foo" "BaseColor" rock_dictionary).1 "BaseColor"
     = ["BaseColor"; "Albedo"; "Foo"; "Foo"]
  /\ ~ Spec.unique_names
         (add_texture_name "Foo, Foo" "BaseColor" rock_dictionary).1 "BaseColor".
Proof.
  assert (E : names_of (add_texture_name "Foo, Foo" "BaseColor" rock_dictionary).1
                "BaseColor" = ["BaseColor"; "Albedo"; "Foo"; "Foo"])
    by (vm_compute; reflexivity).
  split.
  { unfold Spec.unique_names.
    replace (names_of rock_dictionary "BaseColor") with ["BaseColor"; "Albedo"]
      by (vm_compute; reflexivity).
    apply NoDup_cons. split; [|apply NoDup_singleton].
    intros H. by apply list_elem_of_singleton in H. }
  split; [vm_compute; reflexivity|].
  split; [exact E|].
  unfold Spec.unique_names. rewrite E. intros H.
  apply NoDup_cons in H as [_ H]. apply NoDup_cons in H as [_ H].
  apply NoDup_cons in H as [H _]. apply H. by left.
Qed.

(** * Further properties of the code *)

(** ** The calls and the result of a channel function *)

Lemma run_eta (r : run) : r = {| events := events r; outcome := outcome r |}.
Proof. by destruct r. Qed.

Lemma find_is_Some (fs : string -> bool) l :
  is_Some (find fs l) <-> exists p, In p l /\ fs p = true.
Proof.
  induction l as [|c l IH]; simpl.
  - split; [by intros [? ?]|by intros (? & [] & _)].
  - destruct (fs c) eqn:E.
    + split; [|by eauto]. intros _. exists c. by split; [left|].
    + rewrite IH. split.
      * intros (p & Hp & Hfs). exists p. by split; [right|].
      * intros (p & [<-|Hp] & Hfs); [congruence|]. by exists p.
Qed.

(** ** The span of a term *)

Lemma take_drop n s : Py.take n s +:+ Py.drop n s = s.
Proof.
  revert s. induction n as [|n IH]; intros [|c s]; try done.
  cbn [Py.take Py.drop]. by rewrite append_cons, IH.
Qed.

Lemma drop_drop n m s : Py.drop n (Py.drop m s) = Py.drop (m + n) s.
Proof.
  revert s. induction m as [|m IH]; intros s; [done|].
  destruct s as [|c s]; [by destruct n|]. apply IH.
Qed.

Lemma drop_append s r : Py.drop (String.length s) (s +:+ r) = r.
Proof. induction s as [|c s IH]; [done|]. by rewrite append_cons. Qed.

Lemma drop_all n s : (String.length s <= n)%nat -> Py.drop n s = "".
Proof.
  revert s. induction n as [|n IH]; intros [|c s] H; try done.
  - simpl in H. lia.
  - apply IH. simpl in H. lia.
Qed.

Lemma lower_length s : String.length (Py.lower s) = String.length s.
Proof. induction s as [|c s IH]; [done|]. simpl. by rewrite IH. Qed.

Lemma append_length s r :
  String.length (s +:+ r) = (String.length s + String.length r)%nat.
Proof. induction s as [|c s IH]; [done|]. rewrite append_cons. simpl. by rewrite IH. Qed.

Lemma append_assoc a b c : (a +:+ b) +:+ c = a +:+ b +:+ c.
Proof. induction a as [|x a IH]; [done|]. by rewrite !append_cons, IH. Qed.

(** A match under [re.IGNORECASE] is a prefix after both sides are put in
    lower case. *)
Lemma match_here_ic_lower t s :
  Re.match_here_ic t s = Py.startswith (Py.lower t) (Py.lower s).
Proof.
  revert s. induction t as [|a t IH]; intros [|b s]; try done.
  simpl. by rewrite IH.
Qed.

Lemma match_here_ic_spec t s :
  Re.match_here_ic t s = true <->
  exists mid rest, s = mid +:+ rest /\ Py.lower mid = Py.lower t.
Proof.
  rewrite match_here_ic_lower, startswith_spec. split.
  - intros [r Hr]. destruct (lower_append_inv _ _ _ Hr) as (mid & rest & -> & H & _).
    by exists mid, rest.
  - intros (mid & rest & -> & H). exists (Py.lower rest).
    by rewrite lower_append, H.
Qed.

Lemma search_from_None t s i :
  Re.search_from t s i = None <->
  forall d : nat, Re.match_here_ic t (Py.drop d s) = false.
Proof.
  revert i. induction s as [|c s IH]; intros i; simpl.
  - destruct (Re.match_here_ic t "") eqn:E.
    + split; [done|]. intros H. specialize (H 0%nat). simpl in H. congruence.
    + split; [|done]. intros _ [|d]; done.
  - destruct (Re.match_here_ic t (String c s)) eqn:E.
    + split; [done|]. intros H. specialize (H 0%nat). simpl in H. congruence.
    + rewrite IH. split.
      * intros H [|d]; [done|]. apply H.
      * intros H d. apply (H (S d)).
Qed.

Lemma search_ic_fails term s :
  Re.search_ic term s = None <-> ~ Spec.occurs_ic term s.
Proof.
  unfold Re.search_ic.
  destruct (Re.search_from term s 0) as [k|] eqn:E.
  - split; [done|]. intros Hn. destruct Hn.
    destruct (search_from_leftmost _ _ _ _ E) as (d & _ & Hm & _).
    apply match_here_ic_spec in Hm as (mid & rest & Hs & Hl).
    exists (Py.take d s), mid, rest. split; [|done].
    by rewrite <- Hs, take_drop.
  - split; [|done]. intros _ (pre & mid & post & -> & Hl).
    apply search_from_None with (d := String.length pre) in E.
    rewrite drop_append in E.
    assert (Re.match_here_ic term (mid +:+ post) = true); [|congruence].
    apply match_here_ic_spec. by exists mid, post.
Qed.

(** X1. When [re.search] finds a term, the span lies inside the path, has
    the length of the term, and the text in it is the term up to the case of
    its letters; it is the leftmost such place. The search fails exactly when
    the term does not occur in the path with case ignored. *)
Theorem search_ic_span :
  forall term s,
    (forall i j,
        Re.search_ic term s = Some (i, j) ->
        j = (i + String.length term)%nat
        /\ (j <= String.length s)%nat
        /\ (exists mid,
              s = Py.take i s +:+ mid +:+ Py.drop j s
              /\ Py.lower mid = Py.lower term)
        /\ (forall k : nat, (k < i)%nat ->
              Re.match_here_ic term (Py.drop k s) = false))
    /\ (Re.search_ic term s = None <-> ~ Spec.occurs_ic term s).
Proof.
  intros term s. split.
  - intros i j H. destruct (search_ic_leftmost _ _ _ H) as (Hj & Hm & Hleft).
    cbn [fst snd] in *. subst j.
    apply match_here_ic_spec in Hm as Hocc. destruct Hocc as (mid & rest & Hs & Hl).
    assert (Hlen : String.length mid = String.length term)
      by (by rewrite <- (lower_length mid), Hl, lower_length).
    assert (Hi : (i <= String.length s)%nat).
    { destruct (decide (i <= String.length s)%nat) as [|Hn]; [done|]. exfalso.
      specialize (Hleft (String.length s)).
      rewrite drop_all in Hleft by lia. rewrite drop_all in Hm by lia.
      rewrite Hleft in Hm by lia. done. }
    assert (Hrest : Py.drop (i + String.length term) s = rest).
    { by rewrite <- drop_drop, Hs, <- Hlen, drop_append. }
    split; [done|]. split.
    + rewrite <- (take_drop i s), Hs, !append_length.
      assert (String.length (Py.take i s) = i); [|lia].
      clear -Hi. revert s Hi. induction i as [|i IH]; intros [|c s] H; simpl in *;
        try done; try lia. f_equal. apply IH. lia.
    + split; [|done]. exists mid. split; [|done].
      rewrite Hrest, <- Hs. by rewrite take_drop.
  - apply search_ic_fails.
Qed.

Lemma search_ic_span_witness :
  Re.search_ic "BaseColor" "Rock_basecolor.tif" = Some (5%nat, 14%nat)
  /\ (14 <= String.length "Rock_basecolor.tif")%nat.
Proof.
  assert (H : Re.search_ic "BaseColor" "Rock_basecolor.tif" = Some (5%nat, 14%nat))
    by (vm_compute; reflexivity).
  split; [exact H|].
  exact (proj1 (proj2 (proj1 (search_ic_span "BaseColor" "Rock_basecolor.tif")
                         5%nat 14%nat H))).
Defined.

Lemma search_from_lower t t' s s' i :
  Py.lower t = Py.lower t' -> Py.lower s = Py.lower s' ->
  Re.search_from t s i = Re.search_from t' s' i.
Proof.
  intros Ht. revert s' i. induction s as [|c s IH]; intros [|c' s'] i Hs; try done.
  - simpl. by rewrite !match_here_ic_lower, Ht.
  - simpl in Hs. injection Hs as Hc Hs.
    cbn [Re.search_from]. rewrite !match_here_ic_lower, Ht.
    cbn [Py.lower]. rewrite Hc, Hs.
    destruct (Py.startswith _ _); [done|]. by apply IH.
Qed.

(** X2. The match does not depend on the case of the letters: two terms
    that are equal in lower case give the same span in two paths that are
    equal in lower case. *)
Theorem search_ic_ignores_case :
  forall term term' s s',
    Py.lower term = Py.lower term' -> Py.lower s = Py.lower s' ->
    Re.search_ic term s = Re.search_ic term' s'.
Proof.
  intros term term' s s' Ht Hs. unfold Re.search_ic.
  rewrite (search_from_lower _ _ _ _ _ Ht Hs).
  by rewrite <- (lower_length term), Ht, lower_length.
Qed.

Lemma search_ic_ignores_case_witness :
  Py.lower "BaseColor" = Py.lower "BASECOLOR"
  /\ Py.lower "Rock_basecolor.tif" = Py.lower "ROCK_BaseColor.TIF"
  /\ Re.search_ic "BaseColor" "Rock_basecolor.tif"
     = Re.search_ic "BASECOLOR" "ROCK_BaseColor.TIF".
Proof.
  assert (H1 : Py.lower "BaseColor" = Py.lower "BASECOLOR") by reflexivity.
  assert (H2 : Py.lower "Rock_basecolor.tif" = Py.lower "ROCK_BaseColor.TIF")
    by reflexivity.
  split; [exact H1|]. split; [exact H2|].
  exact (search_ic_ignores_case _ _ _ _ H1 H2).
Defined.

(** ** Calls without a match, the number of calls, the extension flag *)

Lemma all_candidates_no_match ch pe image_path terms replacements :
  (forall term, In term terms -> ~ Spec.occurs_ic term image_path) ->
  all_candidates ch pe image_path terms replacements = [].
Proof.
  unfold all_candidates. induction terms as [|t ts IH]; intros Hno; [done|].
  cbn [flat_map]. rewrite IH by (intros ? ?; apply Hno; by right).
  unfold term_candidates.
  rewrite (proj2 (search_ic_fails t image_path)); [done|].
  apply Hno. by left.
Qed.

(** X3. When no base-colour term of the dictionary occurs in the path (after
    the LOD suffix is cut), a channel function asks the filesystem nothing:
    it shows its not-found warning and returns. *)
Theorem no_term_no_probe :
  forall fs ch td image_path material place2d udim,
    image_path <> "" -> material <> "" ->
    names_of td "BaseColor" <> [] -> names_of td (key ch) <> [] ->
    (forall term, In term (names_of td "BaseColor") ->
                  ~ Spec.occurs_ic term (strip_lod image_path)) ->
    link_channel fs ch (Some td) image_path material place2d udim
    = {| events := [Warning (not_found ch)]; outcome := ReturnNone |}.
Proof.
  intros fs ch td image_path material place2d udim Hi Hm Hb Hc Hno.
  rewrite (run_eta (link_channel _ _ _ _ _ _ _)).
  rewrite link_channel_outcome, link_channel_events. unfold call_candidates.
  rewrite (truthy_str_true _ Hi), (truthy_str_true _ Hm),
    (truthy_list_true _ Hb), (truthy_list_true _ Hc).
  cbn [negb orb]. cbv zeta.
  by rewrite (all_candidates_no_match _ _ _ _ _ Hno).
Qed.

Lemma no_term_no_probe_witness :
  "Rock_Diffuse.tif" <> "" /\ "aiStandardSurface1" <> ""
  /\ link_channel (only "Rock_Roughness.png") roughness (Some rock_dictionary)
       "Rock_Diffuse.tif" "aiStandardSurface1" "Place2dTexture" None
     = {| events := [Warning (not_found roughness)]; outcome := ReturnNone |}.
Proof.
  assert (H1 : "Rock_Diffuse.tif" <> "") by discriminate.
  assert (H2 : "aiStandardSurface1" <> "") by discriminate.
  split; [exact H1|]. split; [exact H2|].
  apply (no_term_no_probe (only "Rock_Roughness.png") roughness rock_dictionary
           "Rock_Diffuse.tif" "aiStandardSurface1" "Place2dTexture" None H1 H2).
  - vm_compute. discriminate.
  - vm_compute. discriminate.
  - intros term Hin.
    apply (proj1 (search_ic_fails term (strip_lod "Rock_Diffuse.tif"))).
    vm_compute in Hin. destruct Hin as [<-|[<-|[]]]; vm_compute; reflexivity.
Defined.

Lemma flat_map_length_le {A} (f : A -> list string) (k : nat) l :
  (forall x, (length (f x) <= k)%nat) ->
  (length (flat_map f l) <= length l * k)%nat.
Proof.
  intros H. induction l as [|x l IH]; simpl; [lia|].
  rewrite length_app. specialize (H x). lia.
Qed.

Lemma probed_length (fs : string -> bool) l :
  (length (probed fs l) <= length l)%nat.
Proof. apply prefix_length, probed_prefix. Qed.

Lemma five_extensions ch pe :
  In ch [roughness; metallic; displacement; normal; opacity] ->
  length (image_extensions ch pe) = 5%nat.
Proof.
  intros [<-|[<-|[<-|[<-|[<-|[]]]]]]; try done.
  by destruct pe as [[|]|].
Qed.

(** X4. A call of one of the five channel functions makes at most
    [20 * b * c] calls of [os.path.exists], where [b] is the number of
    base-colour names and [c] the number of names of the channel. *)
Theorem probes_are_bounded :
  forall fs ch td image_path material place2d udim,
    In ch [roughness; metallic; displacement; normal; opacity] ->
    (length
       (exists_calls
          (events (link_channel fs ch (Some td) image_path material place2d udim)))
     <= 20 * length (names_of td "BaseColor") * length (names_of td (key ch)))%nat.
Proof.
  intros fs ch td image_path material place2d udim Hch.
  destruct (link_channel_calls fs ch (Some td) image_path material place2d udim)
    as [-> _].
  etransitivity; [apply probed_length|].
  unfold call_candidates.
  destruct (negb (truthy_str image_path) || negb (truthy_str material));
    [simpl; lia|].
  destruct (negb (truthy_list (names_of td "BaseColor"))
            || negb (truthy_list (names_of td (key ch)))); [simpl; lia|].
  unfold all_candidates.
  etransitivity;
    [apply (flat_map_length_le _ (length (names_of td (key ch)) * 20))|lia].
  intros term. unfold term_candidates.
  destruct (Re.search_ic term (strip_lod image_path)) as [m|]; [|simpl; lia].
  apply flat_map_length_le. intros r.
  etransitivity; [apply (flat_map_length_le _ 5)|simpl; lia].
  intros lod. by rewrite length_map, (five_extensions _ _ Hch).
Qed.

Lemma probes_are_bounded_witness :
  (length
     (exists_calls
        (events (link_channel (only "Rock_Roughness.png") roughness
                   (Some rock_dictionary) "Rock_BaseColor.tif"
                   "aiStandardSurface1" "Place2dTexture" None)))
   <= 20 * length (names_of rock_dictionary "BaseColor")
      * length (names_of rock_dictionary (key roughness)))%nat.
Proof.
  apply (probes_are_bounded (only "Rock_Roughness.png") roughness rock_dictionary).
  left. reflexivity.
Defined.

Lemma In_flat_map_ext {A} (f g : A -> list string) l p :
  (forall x q, In q (f x) <-> In q (g x)) ->
  In p (flat_map f l) <-> In p (flat_map g l).
Proof.
  intros H. rewrite !in_flat_map. split; intros (x & Hx & Hp); exists x;
    (split; [done|]); by apply H.
Qed.

Lemma displacement_extensions_In v v' ext :
  In ext (displacement_extensions v) <-> In ext (displacement_extensions v').
Proof.
  destruct v as [[|]|], v' as [[|]|]; vm_compute; tauto.
Qed.

(** X5. The [prefer_exr] flag changes the order in which the displacement
    function asks for the extensions, not the paths it asks for: a
    displacement file is linked under one value of the flag exactly when one
    is linked under any other value. *)
Theorem prefer_exr_keeps_what_is_found :
  forall fs td v v' image_path material place2d udim,
    is_Some
      (linked_path
         (events (set_maya_displacement_attributes fs (Some (with_prefer_exr v td))
                    image_path material place2d udim)))
    <-> is_Some
          (linked_path
             (events (set_maya_displacement_attributes fs
                        (Some (with_prefer_exr v' td))
                        image_path material place2d udim))).
Proof.
  intros fs td v v' image_path material place2d udim.
  unfold set_maya_displacement_attributes.
  destruct (link_channel_calls fs displacement (Some (with_prefer_exr v td))
              image_path material place2d udim) as (_ & -> & _).
  destruct (link_channel_calls fs displacement (Some (with_prefer_exr v' td))
              image_path material place2d udim) as (_ & -> & _).
  rewrite !find_is_Some.
  assert (E : forall p,
             In p (call_candidates displacement (Some (with_prefer_exr v td))
                     image_path material)
             <-> In p (call_candidates displacement (Some (with_prefer_exr v' td))
                         image_path material)).
  { intros p. unfold call_candidates.
    destruct (negb (truthy_str image_path) || negb (truthy_str material)); [done|].
    change (names_of (with_prefer_exr v td)) with (names_of td).
    change (names_of (with_prefer_exr v' td)) with (names_of td).
    destruct (negb (truthy_list (names_of td "BaseColor"))
              || negb (truthy_list (names_of td (key displacement)))); [done|].
    unfold all_candidates. apply In_flat_map_ext. intros term q.
    unfold term_candidates.
    destruct (Re.search_ic term (strip_lod image_path)) as [m|]; [|done].
    apply In_flat_map_ext. intros r q'. apply In_flat_map_ext. intros lod q''.
    rewrite !in_map_iff. cbn [image_extensions displacement prefer_exr with_prefer_exr].
    split; intros (ext & Hq & Hext); exists ext; (split; [done|]);
      by eapply displacement_extensions_In. }
  split; intros (p & Hp & Hfs); exists p; (split; [|done]); by apply E.
Qed.

Lemma warnings_calls l e :
  warnings (map PathExists l ++ [e]) = warnings [e]
  /\ file_nodes (map PathExists l ++ [e]) = file_nodes [e].
Proof. induction l as [|c l [IH1 IH2]]; simpl; done. Qed.

(** X6. Every call of a channel function ends in exactly one of two ways:
    with one warning and no file node, or with one file node and no warning. *)
Theorem one_warning_or_one_node :
  forall fs ch json_data image_path material place2d udim,
    (length
       (warnings
          (events (link_channel fs ch json_data image_path material place2d udim)))
     + length
         (file_nodes
            (events (link_channel fs ch json_data image_path material place2d udim)))
     = 1)%nat
    /\ (warnings
          (events (link_channel fs ch json_data image_path material place2d udim))
        = [] <->
        is_Some
          (linked_path
             (events (link_channel fs ch json_data image_path material place2d udim)))).
Proof.
  intros fs ch json_data image_path material place2d udim.
  destruct (link_channel_calls fs ch json_data image_path material place2d udim)
    as (_ & -> & Hw).
  rewrite link_channel_events in *.
  destruct (negb (truthy_str image_path) || negb (truthy_str material)).
  { simpl in *. destruct (find fs _); [done|]. split; [done|].
    split; [done|by intros [? ?]]. }
  destruct json_data as [td|];
    [|simpl in *; destruct (find fs _); [done|];
      split; [done|]; split; [done|by intros [? ?]]].
  destruct (negb (truthy_list (names_of td "BaseColor"))
            || negb (truthy_list (names_of td (key ch)))).
  { simpl in *. destruct (find fs _); [done|]. split; [done|].
    split; [done|by intros [? ?]]. }
  cbv zeta in *.
  destruct (warnings_calls
              (probed fs (call_candidates ch (Some td) image_path material))
              (match find fs (call_candidates ch (Some td) image_path material) with
               | Some p =>
                   FileTexture (node_name ch) (Some p)
                     (if negb (truthy_flag udim) then 0 else 3) place2d
               | None => Warning (not_found ch)
               end)) as [-> ->].
  destruct (find fs _); simpl; (split; [done|]).
  - split; [by eauto|done].
  - split; [done|by intros [? ?]].
Qed.

(** ** The cut of the LOD suffix *)

Lemma append_nil_r s : s +:+ "" = s.
Proof. induction s as [|c s IH]; [done|]. by rewrite append_cons, IH. Qed.

Lemma splitext_join p : (OsPath.splitext p).1 +:+ (OsPath.splitext p).2 = p.
Proof.
  unfold OsPath.splitext. destruct (_ && _); cbn [fst snd].
  - apply take_drop.
  - apply append_nil_r.
Qed.

Lemma contains_append_l t a b :
  Py.contains t a = true -> Py.contains t (a +:+ b) = true.
Proof.
  rewrite !contains_spec. intros (pre & post & ->).
  exists pre, (post +:+ b). by rewrite !append_assoc.
Qed.

Lemma sub_lod_id s : Py.contains "_LOD" s = false -> Re.sub_lod_from false s = s.
Proof.
  induction s as [|c s IH]; [done|].
  rewrite contains_unfold. cbn [Re.sub_lod_from].
  destruct (Py.startswith "_LOD" (String c s)); [done|].
  intros H. by rewrite IH.
Qed.

(** X7. A path in which [_LOD] does not occur (in these capitals) is left
    as it is by the cut of the LOD suffix. *)
Theorem strip_lod_unchanged :
  forall image_path,
    Py.contains "_LOD" image_path = false -> strip_lod image_path = image_path.
Proof.
  intros p H. unfold strip_lod.
  pose proof (splitext_join p) as Hj.
  destruct (OsPath.splitext p) as [base_name ext]. cbn [fst snd] in Hj.
  unfold Re.sub_lod. rewrite sub_lod_id; [done|].
  destruct (Py.contains "_LOD" base_name) eqn:E; [|done].
  apply (contains_append_l _ _ ext) in E. congruence.
Qed.

Lemma strip_lod_unchanged_witness :
  Py.contains "_LOD" "textures/Rock_BaseColor_lod1.png" = false
  /\ strip_lod "textures/Rock_BaseColor_lod1.png" = "textures/Rock_BaseColor_lod1.png".
Proof.
  assert (H : Py.contains "_LOD" "textures/Rock_BaseColor_lod1.png" = false)
    by reflexivity.
  split; [exact H|]. exact (strip_lod_unchanged _ H).
Defined.

Lemma sub_lod_skipping s :
  Re.sub_lod_from true s = "" \/ exists r, Re.sub_lod_from true s = String Py.newline r.
Proof.
  induction s as [|c s IH]; [by left|]. cbn [Re.sub_lod_from].
  destruct (Ascii.eqb_spec c Py.newline) as [->|]; [|done]. right. eauto.
Qed.

Lemma sub_lod_startswith t s :
  Py.contains (String Py.newline "") t = false ->
  Py.startswith t (Re.sub_lod_from false s) = true ->
  Py.startswith t s = true.
Proof.
  revert t. induction s as [|c s IH]; intros t Ht; [done|].
  cbn [Re.sub_lod_from].
  destruct (Py.startswith "_LOD" (String c s)) eqn:E.
  - destruct t as [|a t]; [done|].
    destruct (sub_lod_skipping s) as [->|[r ->]]; [done|].
    cbn [Py.startswith]. destruct (Ascii.eqb_spec a Py.newline) as [->|]; [|done].
    by rewrite contains_unfold in Ht.
  - destruct t as [|a t]; [done|]. cbn [Py.startswith].
    destruct (Ascii.eqb a c); [|done]. apply IH.
    rewrite contains_unfold in Ht.
    by destruct (Py.startswith (String Py.newline "") (String a t)).
Qed.

Lemma sub_lod_free skipping s :
  Py.contains "_LOD" (Re.sub_lod_from skipping s) = false.
Proof.
  revert skipping. induction s as [|c s IH]; intros skipping; [by destruct skipping|].
  cbn [Re.sub_lod_from]. destruct skipping.
  - destruct (Ascii.eqb_spec c Py.newline) as [->|]; [|done].
    rewrite contains_unfold. by rewrite IH.
  - destruct (Py.startswith "_LOD" (String c s)) eqn:E; [done|].
    rewrite contains_unfold, IH.
    destruct (Py.startswith "_LOD" (String c (Re.sub_lod_from false s))) eqn:E';
      [|done].
    assert (Py.startswith "_LOD" (String c s) = true); [|congruence].
    apply sub_lod_startswith; [done|].
    cbn [Re.sub_lod_from]. by rewrite E.
Qed.

(** X8. After the cut of the LOD suffix the path is a stem in which [_LOD]
    no longer occurs, followed by the extension of the given path. *)
Theorem strip_lod_stem :
  forall image_path,
    exists stem,
      strip_lod image_path = stem +:+ (OsPath.splitext image_path).2
      /\ Py.contains "_LOD" stem = false.
Proof.
  intros p. unfold strip_lod. destruct (OsPath.splitext p) as [base_name ext].
  exists (Re.sub_lod base_name). split; [done|]. apply sub_lod_free.
Qed.

(** ** An empty name in the BaseColor list *)

Lemma contains_empty s : Py.contains "" s = true.
Proof. by destruct s. Qed.

(** X9. A trailing or doubled comma in the input of the add operation
    submits the empty name, and the add stores it like any other name. Once
    the BaseColor list holds the empty name, [validate_image_file] accepts
    every file. *)
Theorem empty_name_accepts_every_file :
  forall text stored file_path,
    Py.strip text <> "" ->
    In "" (submitted text) ->
    (forall n, In n (submitted text) -> ~ In n (names_of stored "BaseColor")) ->
    In "" (names_of (add_texture_name text "BaseColor" stored).1 "BaseColor")
    /\ validate_image_file file_path
         (names_of (add_texture_name text "BaseColor" stored).1 "BaseColor")
       = true.
Proof.
  intros text stored file_path Htext Hempty Hfresh.
  destruct (add_texture_name_appends text "BaseColor" "BaseColor" stored Htext
              eq_refl Hfresh) as [_ ->].
  assert (Hin : In "" (names_of stored "BaseColor" ++ submitted text))
    by (apply in_app_iff; by right).
  split; [done|].
  unfold validate_image_file. apply existsb_exists. exists "".
  split; [apply in_app_iff; by left|]. apply contains_empty.
Qed.

Lemma empty_name_accepts_every_file_witness :
  Py.strip "Foo," <> "" /\ In "" (submitted "Foo,")
  /\ validate_image_file "/textures/Rock_Normal.png"
       (names_of (add_texture_name "Foo," "BaseColor" rock_dictionary).1 "BaseColor")
     = true.
Proof.
  assert (H1 : Py.strip "Foo," <> "") by (vm_compute; discriminate).
  assert (H2 : In "" (submitted "Foo,")) by (vm_compute; tauto).
  assert (H3 : forall n, In n (submitted "Foo,") ->
                         ~ In n (names_of rock_dictionary "BaseColor")).
  { intros n Hn Hn'. vm_compute in Hn, Hn'.
    destruct Hn as [<-|[<-|[]]]; destruct Hn' as [Hn'|[Hn'|[]]]; discriminate Hn'. }
  split; [exact H1|]. split; [exact H2|].
  exact (proj2 (empty_name_accepts_every_file "Foo," rock_dictionary
                  "/textures/Rock_Normal.png" H1 H2 H3)).
Defined.

(** ** The delete operation and editing sessions *)

Lemma entry_eqb_eq a b : entry_eqb a b = true <-> a = b.
Proof.
  unfold entry_eqb. destruct a as [na la], b as [nb lb]. cbn [name locked].
  rewrite andb_true_iff, String.eqb_eq, Bool.eqb_true_iff.
  split; [by intros [-> ->]|by intros [= -> ->]].
Qed.

Lemma find_texture_first n l e :
  find_texture n l = Some e ->
  exists l1 l2,
    l = l1 ++ e :: l2 /\ name e = n /\ Forall (fun x => name x <> n) l1.
Proof.
  induction l as [|x l IH]; [done|]. cbn [find_texture].
  destruct (String.eqb_spec (name x) n) as [Hx|Hx].
  - intros [= ->]. by exists [], l.
  - intros H. destruct (IH H) as (l1 & l2 & -> & Hn & Hl1).
    exists (x :: l1), l2. split; [done|]. split; [done|]. by constructor.
Qed.

Lemma find_texture_None n l :
  find_texture n l = None <-> ~ In n (map name l).
Proof.
  induction l as [|x l IH]; cbn [find_texture map In]; [tauto|].
  destruct (String.eqb_spec (name x) n); [|tauto].
  split; [done|]. intros H. destruct H. by left.
Qed.

Lemma remove_entry_first l1 e l2 :
  Forall (fun x => x <> e) l1 -> remove_entry e (l1 ++ e :: l2) = l1 ++ l2.
Proof.
  induction 1 as [|x l1 Hx _ IH]; cbn [remove_entry app].
  - by rewrite (proj2 (entry_eqb_eq e e)).
  - destruct (entry_eqb x e) eqn:E; [by apply entry_eqb_eq in E|]. by rewrite IH.
Qed.

Lemma list_remove_first (l1 : list string) n l2 :
  Forall (fun x => x <> n) l1 -> list_remove n (l1 ++ n :: l2) = l1 ++ l2.
Proof.
  induction 1 as [|x l1 Hx _ IH]; cbn [list_remove app].
  - by rewrite String.eqb_refl.
  - destruct (String.eqb_spec x n); [done|]. by rewrite IH.
Qed.

Lemma remove_entry_In x e l :
  In e l -> e <> x -> In e (remove_entry x l).
Proof.
  induction l as [|y l IH]; [done|]. cbn [remove_entry].
  destruct (entry_eqb y x) eqn:E.
  - apply entry_eqb_eq in E as ->. intros [->|H] Hne; done.
  - intros [->|H] Hne; [by left|]. right. by apply IH.
Qed.

Lemma entries_extend_category ty objs td category :
  entries (extend_category ty objs td) category
  = if decide (ty = category) then entries td category ++ objs
    else entries td category.
Proof.
  unfold entries, extend_category. cbn [categories].
  destruct (decide (ty = category)) as [->|Hne].
  - by destruct (categories td !! category); rewrite lookup_insert_eq.
  - by destruct (categories td !! ty); rewrite lookup_insert_ne.
Qed.

Lemma add_texture_name_cases text selected_tab stored :
  (add_texture_name text selected_tab stored).1 = stored
  \/ exists ty,
       texture_type_of_tab selected_tab = Some ty
       /\ Py.strip text <> ""
       /\ (forall n, In n (submitted text) -> ~ In n (names_of stored ty))
       /\ (add_texture_name text selected_tab stored).1
          = extend_category ty
              (map (fun n => {| name := n; locked := false |}) (submitted text))
              stored.
Proof.
  unfold add_texture_name.
  destruct (String.eqb_spec (Py.strip text) "") as [E|Hne].
  { left. unfold truthy_str. by rewrite E. }
  rewrite (truthy_str_true _ Hne).
  destruct (texture_type_of_tab selected_tab) as [ty|]; [|by left]. cbv zeta.
  destruct (truthy_list (List.filter _ _)) eqn:E; [by left|].
  right. exists ty. split; [done|]. split; [done|]. split; [|done].
  by apply no_duplicates_spec.
Qed.

Lemma delete_texture_name_cases selected_tab selected stored :
  (delete_texture_name selected_tab selected stored = (stored, [])
   \/ delete_texture_name selected_tab selected stored = (stored, [LockedDialog]))
  \/ exists ty n rest e,
       delete_type_of_tab selected_tab = Some ty
       /\ selected = Some (n :: rest)
       /\ find_texture n (entries stored ty) = Some e
       /\ locked e = false
       /\ delete_texture_name selected_tab selected stored
          = ({| categories :=
                  <[ty := remove_entry e (entries stored ty)]> (categories stored);
                prefer_exr := prefer_exr stored;
                udim := udim stored |},
             [ListRemove selected_tab n]).
Proof.
  unfold delete_texture_name, entries.
  destruct (delete_type_of_tab selected_tab) as [ty|]; [|by left; left].
  destruct selected as [[|n rest]|]; [by left; left| |by left; left].
  destruct (find_texture n _) as [e|] eqn:E; [|by left; left].
  destruct (locked e) eqn:El; [by left; right|].
  right. by exists ty, n, rest, e.
Qed.

(** X10. No editing session of the manager, whatever its adds, deletes and
    toggles, removes a locked entry: a locked entry of a category is still in
    that category afterwards. *)
Theorem locked_entries_survive :
  forall es stored category e,
    In e (entries stored category) -> locked e = true ->
    In e (entries (apply_edits stored es) category).
Proof.
  unfold apply_edits.
  induction es as [|ed es IH]; intros stored category e Hin Hlocked; [done|].
  cbn [fold_left]. apply IH; [|done]. clear IH.
  destruct ed as [text tab|tab sel|checked|checked]; cbn [apply_edit]; [| |done|done].
  - destruct (add_texture_name_cases text tab stored) as [->|(ty & _ & _ & _ & ->)];
      [done|].
    rewrite entries_extend_category. destruct (decide (ty = category)); [|done].
    apply in_app_iff. by left.
  - destruct (delete_texture_name_cases tab sel stored)
      as [[->| ->]|(ty & n & rest & x & _ & _ & _ & Hx & ->)]; [done|done|].
    cbn [fst]. unfold entries at 1. cbn [categories].
    destruct (decide (ty = category)) as [->|Hne].
    + rewrite lookup_insert_eq. cbn [default]. apply remove_entry_In; [done|].
      intros ->. congruence.
    + by rewrite lookup_insert_ne.
Qed.

Lemma locked_entries_survive_witness :
  In {| name := "Albedo"; locked := true |}
    (entries
       (apply_edits
          {| categories :=
               <["BaseColor" := [entry "Colour"; {| name := "Albedo"; locked := true |}]]> ∅;
             prefer_exr := None; udim := None |}
          [Delete "BaseColor" (Some ["Albedo"]); Add "Diffuse" "BaseColor";
           Delete "BaseColor" (Some ["Colour"]); ToggleUdim true])
       "BaseColor").
Proof.
  apply (locked_entries_survive
           [Delete "BaseColor" (Some ["Albedo"]); Add "Diffuse" "BaseColor";
            Delete "BaseColor" (Some ["Colour"]); ToggleUdim true]).
  - vm_compute. tauto.
  - reflexivity.
Defined.

Lemma delete_names_found selected_tab ty n rest stored e :
  delete_type_of_tab selected_tab = Some ty ->
  find_texture n (entries stored ty) = Some e ->
  locked e = false ->
  names_of (delete_texture_name selected_tab (Some (n :: rest)) stored).1 ty
  = list_remove n (names_of stored ty).
Proof.
  intros Htab Hfind Hlocked.
  unfold delete_texture_name. rewrite Htab. fold (entries stored ty).
  rewrite Hfind, Hlocked. cbn [fst].
  unfold names_of at 1. cbn [categories]. rewrite lookup_insert_eq. cbn [default].
  unfold names_of. fold (entries stored ty).
  destruct (find_texture_first _ _ _ Hfind) as (l1 & l2 & -> & Hn & Hl1).
  rewrite remove_entry_first.
  - rewrite !map_app. cbn [map]. rewrite Hn. rewrite list_remove_first.
    + unfold id. by rewrite map_app.
    + clear -Hl1. induction Hl1; simpl; constructor; done.
  - clear -Hl1 Hn. induction Hl1 as [|x l1 Hx _ IH]; constructor; [|done].
    intros ->. done.
Qed.

Lemma delete_others_found selected_tab ty n rest stored e other :
  delete_type_of_tab selected_tab = Some ty ->
  find_texture n (entries stored ty) = Some e ->
  locked e = false ->
  other <> ty ->
  entries (delete_texture_name selected_tab (Some (n :: rest)) stored).1 other
  = entries stored other.
Proof.
  intros Htab Hfind Hlocked Hne.
  unfold delete_texture_name. rewrite Htab. fold (entries stored ty).
  rewrite Hfind, Hlocked. cbn [fst]. unfold entries at 1. cbn [categories].
  by rewrite lookup_insert_ne.
Qed.

(** X11. A delete that finds an unlocked entry under the selected name
    removes that one entry, the first of that name, and nothing else: the
    names of the category lose the first occurrence of the name, the other
    categories and the two flags stay as they are. *)
Theorem delete_removes_first :
  forall selected_tab ty n rest stored e,
    delete_type_of_tab selected_tab = Some ty ->
    find_texture n (entries stored ty) = Some e ->
    locked e = false ->
    names_of (delete_texture_name selected_tab (Some (n :: rest)) stored).1 ty
    = list_remove n (names_of stored ty)
    /\ (forall other, other <> ty ->
          entries (delete_texture_name selected_tab (Some (n :: rest)) stored).1 other
          = entries stored other)
    /\ prefer_exr (delete_texture_name selected_tab (Some (n :: rest)) stored).1
       = prefer_exr stored
    /\ udim (delete_texture_name selected_tab (Some (n :: rest)) stored).1
       = udim stored
    /\ (delete_texture_name selected_tab (Some (n :: rest)) stored).2
       = [ListRemove selected_tab n].
Proof.
  intros tab ty n rest stored e Htab Hfind Hlocked.
  split; [by eapply delete_names_found|].
  split; [intros other Hne; by eapply delete_others_found|].
  unfold delete_texture_name. rewrite Htab. fold (entries stored ty).
  by rewrite Hfind, Hlocked.
Qed.

Lemma delete_removes_first_witness :
  delete_type_of_tab "BaseColor" = Some "BaseColor"
  /\ find_texture "Albedo" (entries rock_dictionary "BaseColor") = Some (entry "Albedo")
  /\ names_of (delete_texture_name "BaseColor" (Some ["Albedo"]) rock_dictionary).1
       "BaseColor"
     = list_remove "Albedo" (names_of rock_dictionary "BaseColor").
Proof.
  assert (H1 : delete_type_of_tab "BaseColor" = Some "BaseColor") by reflexivity.
  assert (H2 : find_texture "Albedo" (entries rock_dictionary "BaseColor")
               = Some (entry "Albedo")) by (vm_compute; reflexivity).
  split; [exact H1|]. split; [exact H2|].
  exact (proj1 (delete_removes_first "BaseColor" "BaseColor" "Albedo" []
                  rock_dictionary (entry "Albedo") H1 H2 eq_refl)).
Defined.

Lemma delete_tab_is_add_tab selected_tab ty :
  delete_type_of_tab selected_tab = Some ty ->
  texture_type_of_tab selected_tab = Some ty
  /\ String.eqb selected_tab "Specular" = false.
Proof.
  unfold delete_type_of_tab, texture_type_of_tab.
  repeat match goal with
         | |- context [String.eqb selected_tab ?x] =>
             destruct (String.eqb_spec selected_tab x) as [->|?];
             [vm_compute; intros [= <-]; done|]
         end.
  done.
Qed.

(** X12. Adding one new name and then deleting the list item that the add
    made puts the category back: its entries, and those of every other
    category, are what they were before the add. *)
Theorem add_then_delete :
  forall text selected_tab ty n stored,
    delete_type_of_tab selected_tab = Some ty ->
    Py.strip text <> "" ->
    submitted text = [n] ->
    ~ In n (names_of stored ty) ->
    (add_texture_name text selected_tab stored).2
    = [ListAppend selected_tab n; ClearInput]
    /\ forall category,
         entries
           (delete_texture_name selected_tab (Some [n])
              (add_texture_name text selected_tab stored).1).1 category
         = entries stored category.
Proof.
  intros text tab ty n stored Hdel Htext Hsub Hfresh.
  destruct (delete_tab_is_add_tab _ _ Hdel) as [Hadd Hspec].
  assert (Hno : forall m, In m (submitted text) -> ~ In m (names_of stored ty)).
  { rewrite Hsub. by intros m [<-|[]]. }
  destruct (add_texture_name_appends _ _ _ stored Htext Hadd Hno) as [Hstored _].
  split.
  { unfold add_texture_name. rewrite (truthy_str_true _ Htext), Hadd. cbv zeta.
    fold (submitted text).
    rewrite (proj2 (no_duplicates_spec _ _) Hno), Hspec, Hsub. done. }
  rewrite Hstored, Hsub. cbn [map].
  set (e := {| name := n; locked := false |}).
  set (td := extend_category ty [e] stored).
  assert (Hent : entries td ty = entries stored ty ++ [e]).
  { unfold td. rewrite entries_extend_category. by rewrite decide_True. }
  assert (Hl : Forall (fun x => name x <> n) (entries stored ty)).
  { apply List.Forall_forall. intros x Hx Hn. apply Hfresh. rewrite <- Hn.
    unfold names_of. fold (entries stored ty). by apply in_map. }
  assert (Hfind : find_texture n (entries td ty) = Some e).
  { rewrite Hent. clear -Hl. induction Hl as [|x l Hx _ IH]; cbn [find_texture app].
    - by rewrite String.eqb_refl.
    - by destruct (String.eqb_spec (name x) n). }
  intros category. unfold delete_texture_name. rewrite Hdel.
  fold (entries td ty). rewrite Hfind. cbn [locked e fst].
  unfold entries at 1. cbn [categories].
  destruct (decide (ty = category)) as [<-|Hne].
  - rewrite lookup_insert_eq. cbn [default]. rewrite Hent, remove_entry_first.
    + by rewrite app_nil_r.
    + clear -Hl. induction Hl as [|x l Hx _ IH]; constructor; [|done].
      intros ->. done.
  - rewrite lookup_insert_ne by done. fold (entries td category).
    unfold td. rewrite entries_extend_category. by rewrite decide_False.
Qed.

Lemma add_then_delete_witness :
  delete_type_of_tab "Roughness" = Some "Roughness"
  /\ Py.strip " Gloss " <> "" /\ submitted " Gloss " = ["Gloss"]
  /\ ~ In "Gloss" (names_of rock_dictionary "Roughness")
  /\ forall category,
       entries
         (delete_texture_name "Roughness" (Some ["Gloss"])
            (add_texture_name " Gloss " "Roughness" rock_dictionary).1).1 category
       = entries rock_dictionary category.
Proof.
  assert (H1 : delete_type_of_tab "Roughness" = Some "Roughness") by reflexivity.
  assert (H2 : Py.strip " Gloss " <> "") by (vm_compute; discriminate).
  assert (H3 : submitted " Gloss " = ["Gloss"]) by (vm_compute; reflexivity).
  assert (H4 : ~ In "Gloss" (names_of rock_dictionary "Roughness")).
  { intros H. vm_compute in H. destruct H as [H|[]]. discriminate H. }
  repeat (split; [assumption|]).
  exact (proj2 (add_then_delete " Gloss " "Roughness" "Roughness" "Gloss"
                  rock_dictionary H1 H2 H3 H4)).
Defined.

Lemma list_remove_NoDup n (l : list string) :
  NoDup l -> NoDup (list_remove n l) /\ ~ In n (list_remove n l)
             /\ forall x, In x (list_remove n l) -> In x l.
Proof.
  induction 1 as [|x l Hx Hl (IH1 & IH2 & IH3)]; cbn [list_remove].
  - split; [constructor|]. split; [by intros []|done].
  - destruct (String.eqb_spec x n) as [->|Hne].
    + split; [done|]. split; [by rewrite <- list_elem_of_In|]. intros y Hy. by right.
    + split.
      * constructor; [|done]. rewrite list_elem_of_In. intros Hin. apply Hx.
        apply list_elem_of_In. by apply IH3.
      * split; [by intros [?|?]|]. intros y [<-|Hy]; [by left|]. right. by apply IH3.
Qed.

(** X13. A delete keeps the names of every category unique when they were
    unique, and then the name it removed is no longer in the category. *)
Theorem delete_keeps_unique :
  forall selected_tab selected stored,
    (forall category,
        Spec.unique_names stored category ->
        Spec.unique_names (delete_texture_name selected_tab selected stored).1
          category)
    /\ (forall ty n rest e,
          Spec.unique_names stored ty ->
          delete_type_of_tab selected_tab = Some ty ->
          selected = Some (n :: rest) ->
          find_texture n (entries stored ty) = Some e ->
          locked e = false ->
          ~ In n (names_of (delete_texture_name selected_tab selected stored).1 ty)).
Proof.
  intros tab sel stored. split.
  - intros category Hu. unfold Spec.unique_names in *.
    destruct (delete_texture_name_cases tab sel stored)
      as [[->| ->]|(ty & n & rest & e & Htab & -> & Hfind & Hl & _)]; [done|done|].
    destruct (decide (category = ty)) as [->|Hne].
    + rewrite (delete_names_found tab ty n rest stored e Htab Hfind Hl).
      by apply list_remove_NoDup.
    + unfold names_of in *. fold (entries stored category) in Hu.
      fold (entries (delete_texture_name tab (Some (n :: rest)) stored).1 category).
      by rewrite (delete_others_found tab ty n rest stored e category Htab Hfind Hl).
  - intros ty n rest e Hu Htab -> Hfind Hl.
    rewrite (delete_names_found tab ty n rest stored e Htab Hfind Hl).
    by apply list_remove_NoDup.
Qed.

Lemma delete_keeps_unique_witness :
  Spec.unique_names rock_dictionary "BaseColor"
  /\ Spec.unique_names
       (delete_texture_name "BaseColor" (Some ["Albedo"]) rock_dictionary).1
       "BaseColor".
Proof.
  assert (H : Spec.unique_names rock_dictionary "BaseColor").
  { unfold Spec.unique_names.
    replace (names_of rock_dictionary "BaseColor") with ["BaseColor"; "Albedo"]
      by (vm_compute; reflexivity).
    apply NoDup_cons. split; [|apply NoDup_singleton].
    intros Hin. by apply list_elem_of_singleton in Hin. }
  split; [exact H|].
  exact (proj1 (delete_keeps_unique "BaseColor" (Some ["Albedo"]) rock_dictionary)
           "BaseColor" H).
Defined.

Lemma link_channel_same_terms fs ch td td' image_path material place2d udim :
  names_of td' "BaseColor" = names_of td "BaseColor" ->
  names_of td' (key ch) = names_of td (key ch) ->
  prefer_exr td' = prefer_exr td ->
  link_channel fs ch (Some td') image_path material place2d udim
  = link_channel fs ch (Some td) image_path material place2d udim.
Proof.
  intros H1 H2 H3. unfold link_channel. by rewrite H1, H2, H3.
Qed.

(** X14. The add operation has a case for a tab named Specular, which the
    UI does not build. In that case it stores the submitted names under the
    key Specular and shows them in no list; nothing reads that key: after
    such an add each of the five channel functions does what it did before,
    [validate_image_file] sees the same BaseColor names, and the delete
    operation, which has no Specular case, leaves the document as it is. *)
Theorem specular_is_never_read :
  forall fs text stored ch image_path material place2d udim selected,
    In ch [roughness; metallic; displacement; normal; opacity] ->
    (Py.strip text <> "" ->
     (forall n, In n (submitted text) -> ~ In n (names_of stored "Specular")) ->
     names_of (add_texture_name text "Specular" stored).1 "Specular"
     = names_of stored "Specular" ++ submitted text
     /\ (add_texture_name text "Specular" stored).2 = [ClearInput])
    /\ link_channel fs ch (Some (add_texture_name text "Specular" stored).1)
         image_path material place2d udim
       = link_channel fs ch (Some stored) image_path material place2d udim
    /\ names_of (add_texture_name text "Specular" stored).1 "BaseColor"
       = names_of stored "BaseColor"
    /\ delete_texture_name "Specular" selected
         (add_texture_name text "Specular" stored).1
       = ((add_texture_name text "Specular" stored).1, []).
Proof.
  intros fs text stored ch image_path material place2d udim selected Hch.
  split; [|split; [|split; [|done]]].
  - intros Htext Hfresh.
    split; [by apply (add_texture_name_appends text "Specular" "Specular")|].
    assert (Htab : texture_type_of_tab "Specular" = Some "Specular") by reflexivity.
    unfold add_texture_name. rewrite (truthy_str_true _ Htext), Htab. cbv zeta.
    fold (submitted text).
    by rewrite (proj2 (no_duplicates_spec _ _) Hfresh).
  - destruct (add_texture_name_cases text "Specular" stored)
      as [->|(ty & [= <-] & _ & _ & ->)]; [done|].
    apply link_channel_same_terms; [| |done].
    + by apply names_of_extend_category_ne.
    + apply names_of_extend_category_ne.
      by destruct Hch as [<-|[<-|[<-|[<-|[<-|[]]]]]].
  - destruct (add_texture_name_cases text "Specular" stored)
      as [->|(ty & [= <-] & _ & _ & ->)]; [done|].
    by apply names_of_extend_category_ne.
Qed.

Lemma specular_is_never_read_witness :
  In roughness [roughness; metallic; displacement; normal; opacity]
  /\ names_of (add_texture_name "Spec, Gloss" "Specular" rock_dictionary).1 "Specular"
     = names_of rock_dictionary "Specular" ++ submitted "Spec, Gloss"
  /\ link_channel (only "Rock_Roughness.png") roughness
       (Some (add_texture_name "Spec, Gloss" "Specular" rock_dictionary).1)
       "Rock_BaseColor.tif" "aiStandardSurface1" "Place2dTexture" None
     = link_channel (only "Rock_Roughness.png") roughness (Some rock_dictionary)
         "Rock_BaseColor.tif" "aiStandardSurface1" "Place2dTexture" None.
Proof.
  assert (H : In roughness [roughness; metallic; displacement; normal; opacity])
    by (left; reflexivity).
  split; [exact H|].
  destruct (specular_is_never_read (only "Rock_Roughness.png") "Spec, Gloss"
              rock_dictionary roughness "Rock_BaseColor.tif" "aiStandardSurface1"
              "Place2dTexture" None None H) as (Hstored & Hlink & _).
  split; [|exact Hlink].
  refine (proj1 (Hstored _ _)).
  - vm_compute. discriminate.
  - intros n Hn Hn'. vm_compute in Hn'. exact Hn'.
Defined.

(** ** The list item of a batch of several names *)

Lemma contains_char c a s :
  Py.contains (String c "") (String a s)
  = (Ascii.eqb c a || Py.contains (String c "") s).
Proof.
  rewrite contains_unfold. cbn [Py.startswith]. by destruct (Ascii.eqb c a).
Qed.

Lemma split_pieces_no_separator c s w :
  In w (Py.split c s) -> Py.contains (String c "") w = false.
Proof.
  revert w. induction s as [|a s IH]; intros w; cbn [Py.split].
  - by intros [<-|[]].
  - destruct (Ascii.eqb a c) eqn:E.
    + intros [<-|H]; [done|]. by apply IH.
    + destruct (Py.split c s) as [|w0 ws]; intros [<-|H].
      * rewrite contains_char, Ascii.eqb_sym, E. done.
      * done.
      * rewrite contains_char, Ascii.eqb_sym, E. apply IH. by left.
      * apply IH. by right.
Qed.

Lemma lstrip_no_char c s :
  Py.contains (String c "") s = false -> Py.contains (String c "") (Py.lstrip s) = false.
Proof.
  induction s as [|a s IH]; [done|]. cbn [Py.lstrip].
  destruct (Py.is_space a); [|done].
  rewrite contains_char. intros H. apply IH. by destruct (Ascii.eqb c a).
Qed.

Lemma rstrip_no_char c s :
  Py.contains (String c "") s = false -> Py.contains (String c "") (Py.rstrip s) = false.
Proof.
  induction s as [|a s IH]; [done|]. cbn [Py.rstrip].
  rewrite contains_char. intros H.
  destruct (Ascii.eqb c a) eqn:E; [done|]. specialize (IH H).
  destruct (Py.rstrip s) as [|b r].
  - destruct (Py.is_space a); [done|]. by rewrite contains_char, E.
  - by rewrite contains_char, E.
Qed.

Lemma submitted_no_comma text n :
  In n (submitted text) -> Py.contains "," n = false.
Proof.
  unfold submitted. rewrite in_map_iff. intros (w & <- & Hw).
  apply rstrip_no_char, lstrip_no_char. by apply split_pieces_no_separator in Hw.
Qed.

Lemma join_has_comma l :
  (2 <= length l)%nat -> Py.contains "," (Py.join ", " l) = true.
Proof.
  destruct l as [|w1 [|w2 l]]; simpl; [lia|lia|]. intros _.
  apply contains_spec. by exists w1, (" " +:+ Py.join ", " (w2 :: l)).
Qed.

(** X15. After an add of two or more names the UI list holds one item, the
    names joined by a comma and a blank. Selecting that item and deleting
    does nothing to the document, unless a stored entry already had that
    very text as its name: the names of the batch were stored one by one and
    none of them contains a comma. *)
Theorem batch_item_cannot_be_deleted :
  forall text selected_tab ty stored,
    delete_type_of_tab selected_tab = Some ty ->
    Py.strip text <> "" ->
    (2 <= length (submitted text))%nat ->
    (forall n, In n (submitted text) -> ~ In n (names_of stored ty)) ->
    ~ In (Py.join ", " (submitted text)) (names_of stored ty) ->
    (add_texture_name text selected_tab stored).2
    = [ListAppend selected_tab (Py.join ", " (submitted text)); ClearInput]
    /\ names_of (add_texture_name text selected_tab stored).1 ty
       = names_of stored ty ++ submitted text
    /\ delete_texture_name selected_tab (Some [Py.join ", " (submitted text)])
         (add_texture_name text selected_tab stored).1
       = ((add_texture_name text selected_tab stored).1, []).
Proof.
  intros text tab ty stored Hdel Htext Hlen Hfresh Hitem.
  destruct (delete_tab_is_add_tab _ _ Hdel) as [Hadd Hspec].
  destruct (add_texture_name_appends _ _ _ stored Htext Hadd Hfresh)
    as [Hstored Hnames].
  split.
  { unfold add_texture_name. rewrite (truthy_str_true _ Htext), Hadd. cbv zeta.
    fold (submitted text).
    by rewrite (proj2 (no_duplicates_spec _ _) Hfresh), Hspec. }
  split; [done|].
  unfold delete_texture_name. rewrite Hdel.
  assert (E : find_texture (Py.join ", " (submitted text))
                (default [] (categories (add_texture_name text tab stored).1 !! ty))
              = None).
  { apply find_texture_None. fold (names_of (add_texture_name text tab stored).1 ty).
    rewrite Hnames, in_app_iff. intros [H|H]; [done|].
    apply submitted_no_comma in H. by rewrite join_has_comma in H. }
  by rewrite E.
Qed.

Lemma batch_item_cannot_be_deleted_witness :
  delete_type_of_tab "Roughness" = Some "Roughness"
  /\ Py.strip "Gloss, Rough" <> ""
  /\ (2 <= length (submitted "Gloss, Rough"))%nat
  /\ delete_texture_name "Roughness" (Some [Py.join ", " (submitted "Gloss, Rough")])
       (add_texture_name "Gloss, Rough" "Roughness" rock_dictionary).1
     = ((add_texture_name "Gloss, Rough" "Roughness" rock_dictionary).1, []).
Proof.
  assert (H1 : delete_type_of_tab "Roughness" = Some "Roughness") by reflexivity.
  assert (H2 : Py.strip "Gloss, Rough" <> "") by (vm_compute; discriminate).
  assert (H3 : (2 <= length (submitted "Gloss, Rough"))%nat) by (vm_compute; lia).
  assert (H4 : forall n, In n (submitted "Gloss, Rough") ->
                         ~ In n (names_of rock_dictionary "Roughness")).
  { intros n Hn Hn'. vm_compute in Hn, Hn'.
    destruct Hn as [<-|[<-|[]]]; destruct Hn' as [Hn'|[]]; discriminate Hn'. }
  assert (H5 : ~ In (Py.join ", " (submitted "Gloss, Rough"))
                 (names_of rock_dictionary "Roughness")).
  { intros H. vm_compute in H. destruct H as [H|[]]. discriminate H. }
  repeat (split; [assumption|]).
  exact (proj2 (proj2 (batch_item_cannot_be_deleted "Gloss, Rough" "Roughness"
                         "Roughness" rock_dictionary H1 H2 H3 H4 H5))).
Defined.

(** ** The load of the JSON document *)

Section LoaderFacts.

Variable read_json : string -> option json_file.

Lemma load_texture_names_silent saved script r :
  saved_document read_json saved = Some r ->
  load_texture_names read_json saved script
  = {| loaded := loaded_of r; saved_after := saved; script_after := script;
       dialogs := [] |}.
Proof.
  unfold saved_document, load_texture_names. destruct saved as [p|]; [|done].
  destruct (truthy_str p); [|done]. by intros ->.
Qed.

Lemma load_texture_names_prompts saved script :
  saved_document read_json saved = None ->
  load_texture_names read_json saved script
  = select_loop read_json (loop_of saved).1 (loop_of saved).2 script saved [].
Proof.
  unfold saved_document, load_texture_names, loop_of.
  destruct saved as [p|]; [|done].
  destruct (truthy_str p); [|done]. by intros ->.
Qed.

Lemma select_loop_loaded title error_dialog script saved evs td :
  loaded (select_loop read_json title error_dialog script saved evs) = Loaded td ->
  exists p,
    saved_after (select_loop read_json title error_dialog script saved evs) = Some p
    /\ read_json p = Some (JsonDocument td) /\ In p (selections script).
Proof.
  revert saved evs.
  induction script as [|[|[p|]] script IH]; intros saved evs; cbn [select_loop];
    [done|done| |].
  - destruct (read_json p) as [[|td']|] eqn:E.
    + done.
    + cbn [loaded saved_after loaded_of]. intros [= ->]. exists p.
      split; [done|]. split; [done|]. by left.
    + intros H. destruct (IH _ _ H) as (q & ? & ? & ?). exists q.
      split; [done|]. split; [done|]. by right.
  - intros H. destruct (IH _ _ H) as (q & ? & ? & ?). by exists q.
Qed.

Lemma select_loop_no_data title error_dialog script saved evs :
  loaded (select_loop read_json title error_dialog script saved evs) = NoData ->
  In Cancel script
  \/ exists p, In p (selections script) /\ read_json p = Some JsonNull.
Proof.
  revert saved evs.
  induction script as [|[|[p|]] script IH]; intros saved evs; cbn [select_loop];
    [done|by left; left| |].
  - destruct (read_json p) as [[|td']|] eqn:E.
    + intros _. right. exists p. split; [by left|done].
    + done.
    + intros H. destruct (IH _ _ H) as [Hc|(q & Hq & Hn)].
      * left. by right.
      * right. exists q. split; [by right|done].
  - intros H. destruct (IH _ _ H) as [Hc|(q & Hq & Hn)].
    + left. by right.
    + right. by exists q.
Qed.

Lemma select_loop_skip title error_dialog pre script saved evs :
  ~ In Cancel pre ->
  (forall p, In p (selections pre) -> read_json p = None) ->
  select_loop read_json title error_dialog (pre ++ script) saved evs
  = select_loop read_json title error_dialog script
      (match last (selections pre) with Some p => Some p | None => saved end)
      (evs ++ passed_over title error_dialog pre).
Proof.
  revert saved evs.
  induction pre as [|[|[p|]] pre IH]; intros saved evs Hc Hr;
    cbn [app select_loop selections passed_over].
  - by rewrite app_nil_r.
  - destruct Hc. by left.
  - rewrite (Hr p) by (by left).
    rewrite IH; [| intros H; apply Hc; by right | intros q Hq; apply Hr; by right].
    rewrite last_cons. f_equal; [by destruct (last (selections pre))|].
    destruct error_dialog; by rewrite <- !app_assoc.
  - rewrite IH; [| intros H; apply Hc; by right | done].
    by rewrite <- !app_assoc.
Qed.

End LoaderFacts.

(** X16. Whenever the load returns a document, the stored path names the
    file that the document was read from. *)
Theorem load_returns_the_saved_file :
  forall read_json saved script td,
    loaded (load_texture_names read_json saved script) = Loaded td ->
    exists p,
      saved_after (load_texture_names read_json saved script) = Some p
      /\ read_json p = Some (JsonDocument td).
Proof.
  intros read_json saved script td.
  destruct (saved_document read_json saved) as [r|] eqn:E.
  - rewrite (load_texture_names_silent _ _ _ _ E). cbn [loaded saved_after].
    destruct r as [|td']; [done|]. intros [= ->].
    unfold saved_document in E. destruct saved as [p|]; [|done].
    exists p. by destruct (truthy_str p).
  - rewrite (load_texture_names_prompts _ _ script E).
    intros H. destruct (select_loop_loaded _ _ _ _ _ _ _ H) as (p & ? & ? & _).
    by exists p.
Qed.

Lemma load_returns_the_saved_file_witness :
  exists p,
    saved_after
      (load_texture_names
         (fun p => if String.eqb p "names.json"
                   then Some (JsonDocument rock_dictionary) else None)
         (Some "old.json") [Select None; Select (Some "names.json")])
    = Some p
    /\ (if String.eqb p "names.json" then Some (JsonDocument rock_dictionary) else None)
       = Some (JsonDocument rock_dictionary).
Proof.
  apply (load_returns_the_saved_file
           (fun p => if String.eqb p "names.json"
                     then Some (JsonDocument rock_dictionary) else None)
           (Some "old.json") [Select None; Select (Some "names.json")]
           rock_dictionary).
  reflexivity.
Defined.

(** X17. The load returns [None] in two ways only: the stored file, or a
    file that the user selected, holds the JSON value [null], which
    [json.load] reads as [None]; or the stored path gave nothing and the user
    cancelled a dialog. When no file holds [null], it returns [None] only
    after a cancel. *)
Theorem load_returns_none_on_cancel_or_null :
  forall read_json saved script,
    loaded (load_texture_names read_json saved script) = NoData ->
    (saved_document read_json saved = Some JsonNull
     \/ (saved_document read_json saved = None
         /\ (In Cancel script
             \/ exists p, In p (selections script) /\ read_json p = Some JsonNull)))
    /\ ((forall p, read_json p <> Some JsonNull) ->
        In Cancel script /\ saved_document read_json saved = None).
Proof.
  intros read_json saved script H.
  assert (E : saved_document read_json saved = Some JsonNull
              \/ (saved_document read_json saved = None
                  /\ (In Cancel script
                      \/ exists p, In p (selections script)
                                   /\ read_json p = Some JsonNull))).
  { destruct (saved_document read_json saved) as [r|] eqn:E.
    - rewrite (load_texture_names_silent _ _ _ _ E) in H. cbn [loaded] in H.
      destruct r; [by left|done].
    - right. split; [done|].
      rewrite (load_texture_names_prompts _ _ script E) in H.
      by eapply select_loop_no_data. }
  split; [exact E|]. intros Hnn.
  destruct E as [E|[E [Hc|(p & _ & Hp)]]].
  - exfalso. unfold saved_document in E. destruct saved as [p|]; [|done].
    destruct (truthy_str p); [|done]. by apply (Hnn p).
  - done.
  - by destruct (Hnn p).
Qed.

Lemma load_returns_none_on_cancel_or_null_witness :
  saved_document
    (fun p => if String.eqb p "null.json" then Some JsonNull else None)
    (Some "null.json") = Some JsonNull
  \/ (saved_document
        (fun p => if String.eqb p "null.json" then Some JsonNull else None)
        (Some "null.json") = None
      /\ (In Cancel []
          \/ exists p,
               In p (selections [])
               /\ (if String.eqb p "null.json" then Some JsonNull else None)
                  = Some JsonNull)).
Proof.
  exact (proj1 (load_returns_none_on_cancel_or_null
                  (fun p => if String.eqb p "null.json" then Some JsonNull else None)
                  (Some "null.json") [] eq_refl)).
Defined.

(** X18. When the stored path gives nothing, the load goes through the
    user's steps. As long as nothing is cancelled it passes over closed file
    dialogs and selected files that raise on loading: for each such step it
    shows its dialog and the file dialog again, stores the path of a selected
    file before it tries to load it, and in the loop without a stored path
    shows the error dialog after a file that raised. It returns at the first
    selected file that [json.load] reads, with the document, or with [None]
    when the file holds [null]; the path of that file is stored and the later
    steps stay unused. *)
Theorem load_takes_first_loadable :
  forall read_json saved pre p rest r,
    saved_document read_json saved = None ->
    ~ In Cancel pre ->
    (forall q, In q (selections pre) -> read_json q = None) ->
    read_json p = Some r ->
    loaded (load_texture_names read_json saved (pre ++ Select (Some p) :: rest))
    = match r with JsonDocument td => Loaded td | JsonNull => NoData end
    /\ saved_after
         (load_texture_names read_json saved (pre ++ Select (Some p) :: rest))
       = Some p
    /\ script_after
         (load_texture_names read_json saved (pre ++ Select (Some p) :: rest))
       = rest
    /\ dialogs
         (load_texture_names read_json saved (pre ++ Select (Some p) :: rest))
       = passed_over (loop_of saved).1 (loop_of saved).2 pre
           ++ [AskDialog (loop_of saved).1; FileDialog; SavePath p].
Proof.
  intros read_json saved pre p rest r Hs Hc Hr Hp.
  rewrite (load_texture_names_prompts _ _ (pre ++ Select (Some p) :: rest) Hs).
  rewrite (select_loop_skip read_json _ _ pre (Select (Some p) :: rest)
             saved [] Hc Hr).
  cbn [select_loop]. rewrite Hp. cbn [loaded saved_after script_after dialogs app].
  by destruct r.
Qed.

Lemma load_takes_first_loadable_witness :
  saved_document
    (fun p => if String.eqb p "names.json"
              then Some (JsonDocument rock_dictionary) else None)
    (Some "old.json") = None
  /\ ~ In Cancel [Select None; Select (Some "broken.json")]
  /\ loaded
       (load_texture_names
          (fun p => if String.eqb p "names.json"
                    then Some (JsonDocument rock_dictionary) else None)
          (Some "old.json")
          ([Select None; Select (Some "broken.json")]
             ++ Select (Some "names.json") :: [Cancel]))
     = Loaded rock_dictionary
  /\ dialogs
       (load_texture_names
          (fun p => if String.eqb p "names.json"
                    then Some (JsonDocument rock_dictionary) else None)
          (Some "old.json")
          ([Select None; Select (Some "broken.json")]
             ++ Select (Some "names.json") :: [Cancel]))
     = [AskDialog "Error"; FileDialog;
        AskDialog "Error"; FileDialog; SavePath "broken.json";
        AskDialog "Error"; FileDialog; SavePath "names.json"].
Proof.
  assert (H1 : saved_document
                 (fun p => if String.eqb p "names.json"
                           then Some (JsonDocument rock_dictionary) else None)
                 (Some "old.json") = None) by reflexivity.
  assert (H2 : ~ In Cancel [Select None; Select (Some "broken.json")]).
  { intros [H|[H|[]]]; discriminate H. }
  split; [exact H1|]. split; [exact H2|].
  assert (H3 : forall q, In q (selections [Select None; Select (Some "broken.json")]) ->
                         (if String.eqb q "names.json"
                          then Some (JsonDocument rock_dictionary) else None) = None).
  { intros q [<-|[]]. reflexivity. }
  destruct (load_takes_first_loadable _ (Some "old.json")
              [Select None; Select (Some "broken.json")] "names.json" [Cancel]
              (JsonDocument rock_dictionary) H1 H2 H3 eq_refl)
    as (Ha & _ & _ & Hd).
  split; [exact Ha|exact Hd].
Defined.

(** X19. A selected file that does not load still replaces the stored path,
    and a cancel does not put the old path back: when the user cancels
    before any selected file has loaded, the load returns [None] and the
    stored path is the last path selected, or the old one if none was. *)
Theorem cancel_keeps_last_selection :
  forall read_json saved pre rest,
    saved_document read_json saved = None ->
    ~ In Cancel pre ->
    (forall q, In q (selections pre) -> read_json q = None) ->
    loaded (load_texture_names read_json saved (pre ++ Cancel :: rest)) = NoData
    /\ saved_after (load_texture_names read_json saved (pre ++ Cancel :: rest))
       = match last (selections pre) with Some p => Some p | None => saved end
    /\ script_after (load_texture_names read_json saved (pre ++ Cancel :: rest))
       = rest.
Proof.
  intros read_json saved pre rest Hs Hc Hr.
  rewrite (load_texture_names_prompts _ _ (pre ++ Cancel :: rest) Hs).
  by rewrite (select_loop_skip read_json _ _ pre (Cancel :: rest) saved [] Hc Hr).
Qed.

Lemma cancel_keeps_last_selection_witness :
  saved_document (fun _ => None) (Some "names.json") = None
  /\ ~ In Cancel [Select (Some "broken.json")]
  /\ saved_after
       (load_texture_names (fun _ => None) (Some "names.json")
          ([Select (Some "broken.json")] ++ Cancel :: []))
     = Some "broken.json".
Proof.
  assert (H1 : saved_document (fun _ => None) (Some "names.json") = None)
    by reflexivity.
  assert (H2 : ~ In Cancel [Select (Some "broken.json")]).
  { intros [H|[]]. discriminate H. }
  split; [exact H1|]. split; [exact H2|].
  exact (proj1 (proj2 (cancel_keeps_last_selection (fun _ => None)
                         (Some "names.json") [Select (Some "broken.json")] []
                         H1 H2 (fun q _ => eq_refl)))).
Defined.

Lemma loaded_saved_document read_json saved script td :
  read_json "" = None ->
  loaded (load_texture_names read_json saved script) = Loaded td ->
  saved_document read_json
    (saved_after (load_texture_names read_json saved script))
  = Some (JsonDocument td).
Proof.
  intros Hempty H.
  destruct (saved_document read_json saved) as [r|] eqn:E.
  - rewrite (load_texture_names_silent _ _ _ _ E) in *. cbn [loaded saved_after] in *.
    destruct r; [done|]. cbn [loaded_of] in H. congruence.
  - rewrite (load_texture_names_prompts _ _ script E) in *.
    destruct (select_loop_loaded _ _ _ _ _ _ _ H) as (p & -> & Hp & _).
    unfold saved_document. destruct (String.eqb_spec p "") as [->|Hne]; [congruence|].
    by rewrite (truthy_str_true _ Hne).
Qed.

(** X20. After a load that returned a document, every later load returns
    the same document at once, with no dialog and no user step used (the empty
    path opens no file). *)
Theorem reload_is_silent :
  forall read_json saved script td script',
    read_json "" = None ->
    loaded (load_texture_names read_json saved script) = Loaded td ->
    load_texture_names read_json
      (saved_after (load_texture_names read_json saved script)) script'
    = {| loaded := Loaded td;
         saved_after := saved_after (load_texture_names read_json saved script);
         script_after := script';
         dialogs := [] |}.
Proof.
  intros read_json saved script td script' Hempty H.
  by rewrite (load_texture_names_silent _ _ _ _
                (loaded_saved_document _ _ _ _ Hempty H)).
Qed.

Lemma reload_is_silent_witness :
  dialogs
    (load_texture_names
       (fun p => if String.eqb p "names.json"
                 then Some (JsonDocument rock_dictionary) else None)
       (saved_after
          (load_texture_names
             (fun p => if String.eqb p "names.json"
                       then Some (JsonDocument rock_dictionary) else None)
             None [Select (Some "names.json")]))
       [Cancel])
  = [].
Proof.
  exact (f_equal dialogs
           (reload_is_silent
              (fun p => if String.eqb p "names.json"
                        then Some (JsonDocument rock_dictionary) else None)
              None [Select (Some "names.json")] rock_dictionary [Cancel]
              eq_refl eq_refl)).
Defined.

(** ** [main] *)

Section MainFacts.

Variable read_json : string -> option json_file.
Variable fs : string -> bool.

Lemma host_host a b s : host b (host a s) = host (a ++ b) s.
Proof.
  unfold host. cbn [saved_path script log status]. f_equal.
  by rewrite map_app, app_assoc.
Qed.

Lemma load_and_link_silent ch image_path material place2d udim s td :
  status s = Done ->
  image_path <> "" -> material <> "" ->
  saved_document read_json (saved_path s) = Some (JsonDocument td) ->
  load_and_link read_json fs ch image_path material place2d udim s
  = host (events (link_channel fs ch (Some td) image_path material place2d udim)) s.
Proof.
  intros Hs Hi Hm Hd. destruct s as [sp sc lg st].
  cbn [status saved_path] in Hs, Hd. subst st.
  unfold load_and_link. cbn [status saved_path script log].
  rewrite (truthy_str_true _ Hi), (truthy_str_true _ Hm). cbn [negb orb].
  rewrite (load_texture_names_silent _ _ _ _ Hd). cbn [loaded saved_after
    script_after dialogs map]. unfold host. cbn [saved_path script log status].
  by rewrite app_nil_r.
Qed.

(** What [main] does once it has its document, a material and a valid
    file: the node of the base colour, then the five channel functions in
    the order metallic, roughness, opacity, normal, displacement, each on the
    same document. *)
Lemma main_linking saved steps selected_objects material materials file_path
    place2d td :
  read_json "" = None ->
  loaded (load_texture_names read_json saved steps) = Loaded td ->
  names_of td "BaseColor" <> [] ->
  selected_objects <> [] -> material <> "" -> file_path <> "" ->
  validate_image_file file_path (names_of td "BaseColor") = true ->
  main read_json fs saved steps selected_objects (material :: materials)
    (Some file_path) place2d
  = {| saved_path := saved_after (load_texture_names read_json saved steps);
       script := script_after (load_texture_names read_json saved steps);
       log :=
         map FromLoader (dialogs (load_texture_names read_json saved steps))
           ++ Place2dTexture
           :: map FromHost
                (FileTexture "BaseColor_File" (Some file_path)
                   (if negb (truthy_flag (udim td)) then 0 else 3) place2d
                 :: flat_map
                      (fun ch =>
                         events (link_channel fs ch (Some td) file_path material
                                   place2d (udim td)))
                      [metallic; roughness; opacity; normal; displacement]);
       status := Done |}.
Proof.
  intros Hempty Hl Hb Hsel Hm Hf Hv.
  pose proof (loaded_saved_document _ _ _ _ Hempty Hl) as Hd.
  unfold main. rewrite Hl. cbv zeta.
  rewrite (truthy_list_true _ Hb). cbn [negb].
  unfold get_selected_material.
  rewrite (truthy_list_true _ Hsel), (truthy_str_true _ Hm),
    (truthy_str_true _ Hf), Hv. cbn [negb].
  unfold set_maya_bc_attributes.
  rewrite (truthy_str_true _ Hm), (truthy_str_true _ Hf). cbn [negb orb events].
  rewrite (load_and_link_silent metallic _ _ _ _ _ td)
    by (try done; unfold host; cbn [saved_path script log status]; done).
  rewrite (load_and_link_silent roughness _ _ _ _ _ td)
    by (try done; unfold host; cbn [saved_path script log status]; done).
  rewrite (load_and_link_silent opacity _ _ _ _ _ td)
    by (try done; unfold host; cbn [saved_path script log status]; done).
  rewrite (load_and_link_silent normal _ _ _ _ _ td)
    by (try done; unfold host; cbn [saved_path script log status]; done).
  rewrite (load_and_link_silent displacement _ _ _ _ _ td)
    by (try done; unfold host; cbn [saved_path script log status]; done).
  rewrite !host_host. unfold host.
  cbn [saved_path script log status map app flat_map].
  f_equal. rewrite !app_nil_r, <- !app_assoc. done.
Qed.

End MainFacts.

Lemma log_projections (d : list loader_event) (h : list event) :
  host_events (map FromLoader d ++ Place2dTexture :: map FromHost h) = h
  /\ loader_events (map FromLoader d ++ Place2dTexture :: map FromHost h) = d.
Proof.
  split.
  - induction d as [|e d IH]; [|done]. cbn [map app host_events].
    induction h as [|e h IH]; [done|]. cbn [map host_events]. by rewrite IH.
  - induction d as [|e d IH]; cbn [map app loader_events]; [|by rewrite IH].
    induction h as [|e h IH]; done.
Qed.

Lemma file_nodes_app a b : file_nodes (a ++ b) = file_nodes a ++ file_nodes b.
Proof. induction a as [|[] a IH]; cbn [app file_nodes]; by rewrite ?IH. Qed.

Lemma warnings_app a b : warnings (a ++ b) = warnings a ++ warnings b.
Proof. induction a as [|[] a IH]; cbn [app warnings]; by rewrite ?IH. Qed.

Lemma link_channel_nodes fs ch json_data image_path material place2d udim :
  file_nodes
    (events (link_channel fs ch json_data image_path material place2d udim))
  = match find fs (call_candidates ch json_data image_path material) with
    | Some p => [(node_name ch, Some p, if negb (truthy_flag udim) then 0 else 3)]
    | None => []
    end.
Proof.
  rewrite link_channel_events. unfold call_candidates.
  destruct (negb (truthy_str image_path) || negb (truthy_str material)); [done|].
  destruct json_data as [td|]; [|done].
  destruct (negb (truthy_list (names_of td "BaseColor"))
            || negb (truthy_list (names_of td (key ch)))); [done|].
  cbv zeta. rewrite (proj2 (warnings_calls _ _)). by destruct (find fs _).
Qed.

(** X21. Once [main] has its document, a selected material and a file that
    passes the validation, it makes the file node of the base colour on the
    selected path and then, for metallic, roughness, opacity, normal and
    displacement in this order, a file node on the first existing candidate
    of the channel when there is one. A channel without a file does not stop
    the channels after it, and every node gets the tiling mode of the [udim]
    flag of the document: 3 when it is true, 0 otherwise. *)
Theorem main_file_nodes :
  forall read_json fs saved steps selected_objects material materials file_path
         place2d td,
    read_json "" = None ->
    loaded (load_texture_names read_json saved steps) = Loaded td ->
    names_of td "BaseColor" <> [] ->
    selected_objects <> [] -> material <> "" -> file_path <> "" ->
    validate_image_file file_path (names_of td "BaseColor") = true ->
    status (main read_json fs saved steps selected_objects (material :: materials)
              (Some file_path) place2d) = Done
    /\ file_nodes
         (host_events
            (log (main read_json fs saved steps selected_objects
                    (material :: materials) (Some file_path) place2d)))
       = ("BaseColor_File", Some file_path,
          if negb (truthy_flag (udim td)) then 0 else 3)
         :: flat_map
              (fun ch =>
                 match find fs (call_candidates ch (Some td) file_path material) with
                 | Some p =>
                     [(node_name ch, Some p,
                       if negb (truthy_flag (udim td)) then 0 else 3)]
                 | None => []
                 end)
              [metallic; roughness; opacity; normal; displacement].
Proof.
  intros read_json fs saved steps sel m mats fp place2d td He Hl Hb Hs Hm Hf Hv.
  rewrite (main_linking read_json fs saved steps sel m mats fp place2d td
             He Hl Hb Hs Hm Hf Hv).
  cbn [status log]. split; [done|].
  rewrite (proj1 (log_projections _ _)). cbn [file_nodes flat_map].
  rewrite !file_nodes_app, !link_channel_nodes. done.
Qed.

(** X22. In such a run [main] goes through the file selection at most once:
    the dialogs of the run are those of its first load, and the loads that
    the five channel functions make show none, use none of the user's steps
    and leave the stored path as the first load left it. *)
Theorem main_asks_once :
  forall read_json fs saved steps selected_objects material materials file_path
         place2d td,
    read_json "" = None ->
    loaded (load_texture_names read_json saved steps) = Loaded td ->
    names_of td "BaseColor" <> [] ->
    selected_objects <> [] -> material <> "" -> file_path <> "" ->
    validate_image_file file_path (names_of td "BaseColor") = true ->
    loader_events
      (log (main read_json fs saved steps selected_objects (material :: materials)
              (Some file_path) place2d))
    = dialogs (load_texture_names read_json saved steps)
    /\ script (main read_json fs saved steps selected_objects (material :: materials)
                 (Some file_path) place2d)
       = script_after (load_texture_names read_json saved steps)
    /\ saved_path (main read_json fs saved steps selected_objects
                     (material :: materials) (Some file_path) place2d)
       = saved_after (load_texture_names read_json saved steps).
Proof.
  intros read_json fs saved steps sel m mats fp place2d td He Hl Hb Hs Hm Hf Hv.
  rewrite (main_linking read_json fs saved steps sel m mats fp place2d td
             He Hl Hb Hs Hm Hf Hv).
  cbn [script saved_path log]. by rewrite (proj2 (log_projections _ _)).
Qed.

Lemma call_candidates_no_match ch td image_path material :
  (forall term, In term (names_of td "BaseColor") ->
                ~ Spec.occurs_ic term (strip_lod image_path)) ->
  call_candidates ch (Some td) image_path material = [].
Proof.
  intros Hno. unfold call_candidates.
  destruct (negb (truthy_str image_path) || negb (truthy_str material)); [done|].
  destruct (negb (truthy_list (names_of td "BaseColor"))
            || negb (truthy_list (names_of td (key ch)))); [done|].
  by apply all_candidates_no_match.
Qed.

(** X23. A file can pass the validation without any base-colour name of the
    dictionary occurring in the path that the channel functions search (the
    validation also accepts three fixed words, and it looks at the name
    before the LOD suffix is cut). Then [main] links the base colour only: it
    makes that one node, never asks the filesystem, and shows one warning for
    each of the five channels. *)
Theorem main_links_base_colour_only :
  forall read_json fs saved steps selected_objects material materials file_path
         place2d td,
    read_json "" = None ->
    loaded (load_texture_names read_json saved steps) = Loaded td ->
    names_of td "BaseColor" <> [] ->
    selected_objects <> [] -> material <> "" -> file_path <> "" ->
    validate_image_file file_path (names_of td "BaseColor") = true ->
    (forall term, In term (names_of td "BaseColor") ->
                  ~ Spec.occurs_ic term (strip_lod file_path)) ->
    file_nodes
      (host_events
         (log (main read_json fs saved steps selected_objects
                 (material :: materials) (Some file_path) place2d)))
    = [("BaseColor_File", Some file_path,
        if negb (truthy_flag (udim td)) then 0 else 3)]
    /\ exists_calls
         (host_events
            (log (main read_json fs saved steps selected_objects
                    (material :: materials) (Some file_path) place2d)))
       = []
    /\ length
         (warnings
            (host_events
               (log (main read_json fs saved steps selected_objects
                       (material :: materials) (Some file_path) place2d))))
       = 5%nat.
Proof.
  intros read_json fs saved steps sel m mats fp place2d td He Hl Hb Hs Hm Hf Hv Hno.
  rewrite (main_linking read_json fs saved steps sel m mats fp place2d td
             He Hl Hb Hs Hm Hf Hv).
  cbn [log]. rewrite (proj1 (log_projections _ _)).
  cbn [file_nodes exists_calls warnings flat_map].
  rewrite !file_nodes_app, !exists_calls_app, !warnings_app, !length_app.
  rewrite !link_channel_nodes.
  repeat match goal with
         | |- context [exists_calls (events (link_channel fs ?ch ?j ?i ?mm ?p ?u))] =>
             destruct (link_channel_calls fs ch j i mm p u) as (-> & _ & ->)
         end.
  rewrite !(call_candidates_no_match _ _ _ _ Hno). done.
Qed.

Lemma main_links_base_colour_only_witness :
  validate_image_file "Rock_LOD0_Albedo.png" (names_of rock_dictionary "BaseColor")
  = true
  /\ file_nodes
       (host_events
          (log (main (fun p => if String.eqb p "names.json"
                               then Some (JsonDocument rock_dictionary) else None)
                  (only "Rock_Roughness.png") (Some "names.json") []
                  ["aiStandardSurface1"] ("aiStandardSurface1" :: [])
                  (Some "Rock_LOD0_Albedo.png") "Place2dTexture")))
     = [("BaseColor_File", Some "Rock_LOD0_Albedo.png", 0)].
Proof.
  assert (Hv : validate_image_file "Rock_LOD0_Albedo.png"
                 (names_of rock_dictionary "BaseColor") = true)
    by (vm_compute; reflexivity).
  split; [exact Hv|].
  refine (proj1 (main_links_base_colour_only
                   (fun p => if String.eqb p "names.json"
                             then Some (JsonDocument rock_dictionary) else None)
                   (only "Rock_Roughness.png") (Some "names.json") []
                   ["aiStandardSurface1"] "aiStandardSurface1" []
                   "Rock_LOD0_Albedo.png" "Place2dTexture" rock_dictionary
                   eq_refl eq_refl _ _ _ _ Hv _)).
  - vm_compute. discriminate.
  - discriminate.
  - discriminate.
  - discriminate.
  - intros term Hin.
    apply (proj1 (search_ic_fails term (strip_lod "Rock_LOD0_Albedo.png"))).
    vm_compute in Hin. destruct Hin as [<-|[<-|[]]]; vm_compute; reflexivity.
Defined.

(** X24. When something is selected but no selected node is an
    aiStandardSurface, [main] does not reach its warning: the index into the
    empty list of materials raises [IndexError], after the document was
    loaded and before any file is asked for or linked. *)
Theorem main_raises_without_material :
  forall read_json fs saved steps selected_objects file_choice place2d td,
    loaded (load_texture_names read_json saved steps) = Loaded td ->
    names_of td "BaseColor" <> [] ->
    selected_objects <> [] ->
    status (main read_json fs saved steps selected_objects [] file_choice place2d)
    = Failed "IndexError"
    /\ host_events
         (log (main read_json fs saved steps selected_objects [] file_choice place2d))
       = [].
Proof.
  intros read_json fs saved steps sel fc place2d td Hl Hb Hs.
  unfold main. rewrite Hl. cbv zeta. rewrite (truthy_list_true _ Hb). cbn [negb].
  unfold get_selected_material. rewrite (truthy_list_true _ Hs).
  cbn [negb status log map]. split; [done|]. rewrite app_nil_r.
  induction (dialogs _); done.
Qed.

Lemma main_raises_without_material_witness :
  status
    (main (fun p => if String.eqb p "names.json" then Some (JsonDocument rock_dictionary) else None)
       (only "Rock_Roughness.png") (Some "names.json") [] ["pCube1"] []
       (Some "Rock_BaseColor.tif") "Place2dTexture")
  = Failed "IndexError".
Proof.
  refine (proj1 (main_raises_without_material
                   (fun p => if String.eqb p "names.json"
                             then Some (JsonDocument rock_dictionary) else None)
                   (only "Rock_Roughness.png") (Some "names.json") [] ["pCube1"]
                   (Some "Rock_BaseColor.tif") "Place2dTexture" rock_dictionary
                   eq_refl _ _)).
  - vm_compute. discriminate.
  - discriminate.
Defined.

(** X25. A file whose name the validation rejects is not linked at all:
    [main] shows one warning, makes no node, not even the one of the base
    colour, and asks the filesystem nothing. *)
Theorem main_rejects_unvalidated_file :
  forall read_json fs saved steps selected_objects material materials file_path
         place2d td,
    loaded (load_texture_names read_json saved steps) = Loaded td ->
    names_of td "BaseColor" <> [] ->
    selected_objects <> [] -> material <> "" -> file_path <> "" ->
    validate_image_file file_path (names_of td "BaseColor") = false ->
    status (main read_json fs saved steps selected_objects (material :: materials)
              (Some file_path) place2d) = Done
    /\ host_events
         (log (main read_json fs saved steps selected_objects
                 (material :: materials) (Some file_path) place2d))
       = [Warning
            "The selected image file does not contain any related Basecolor Names in the filename. Please select the appropriate BaseColor map."].
Proof.
  intros read_json fs saved steps sel m mats fp place2d td Hl Hb Hs Hm Hf Hv.
  unfold main. rewrite Hl. cbv zeta. rewrite (truthy_list_true _ Hb). cbn [negb].
  unfold get_selected_material.
  rewrite (truthy_list_true _ Hs), (truthy_str_true _ Hm), (truthy_str_true _ Hf), Hv.
  cbn [negb]. unfold host. cbn [status log map saved_path script].
  split; [done|]. rewrite app_nil_r.
  induction (dialogs _); done.
Qed.

Lemma main_rejects_unvalidated_file_witness :
  host_events
    (log (main (fun p => if String.eqb p "names.json"
                         then Some (JsonDocument rock_dictionary) else None)
            (only "Rock_Roughness.png") (Some "names.json") []
            ["aiStandardSurface1"] ("aiStandardSurface1" :: [])
            (Some "Rock_Normal.png") "Place2dTexture"))
  = [Warning
       "The selected image file does not contain any related Basecolor Names in the filename. Please select the appropriate BaseColor map."].
Proof.
  refine (proj2 (main_rejects_unvalidated_file
                   (fun p => if String.eqb p "names.json"
                             then Some (JsonDocument rock_dictionary) else None)
                   (only "Rock_Roughness.png") (Some "names.json") []
                   ["aiStandardSurface1"] "aiStandardSurface1" []
                   "Rock_Normal.png" "Place2dTexture" rock_dictionary
                   eq_refl _ _ _ _ _)).
  - vm_compute. discriminate.
  - discriminate.
  - discriminate.
  - discriminate.
  - vm_compute. reflexivity.
Defined.

Lemma main_file_nodes_witness :
  status
    (main (fun p => if String.eqb p "names.json" then Some (JsonDocument rock_dictionary_all) else None)
       (only "Rock_Roughness.png") None [Select (Some "names.json")]
       ["aiStandardSurface1"] ("aiStandardSurface1" :: [])
       (Some "Rock_BaseColor.tif") "Place2dTexture")
  = Done
  /\ file_nodes
       (host_events
          (log (main (fun p => if String.eqb p "names.json"
                               then Some (JsonDocument rock_dictionary_all) else None)
                  (only "Rock_Roughness.png") None [Select (Some "names.json")]
                  ["aiStandardSurface1"] ("aiStandardSurface1" :: [])
                  (Some "Rock_BaseColor.tif") "Place2dTexture")))
     = [("BaseColor_File", Some "Rock_BaseColor.tif", 0);
        ("Roughness_File", Some "Rock_Roughness.png", 0)].
Proof.
  assert (H : forall A B C : Prop, A /\ B -> (B -> C) -> A /\ C) by tauto.
  refine (H _ _ _ (main_file_nodes
                     (fun p => if String.eqb p "names.json"
                               then Some (JsonDocument rock_dictionary_all) else None)
                     (only "Rock_Roughness.png") None [Select (Some "names.json")]
                     ["aiStandardSurface1"] "aiStandardSurface1" []
                     "Rock_BaseColor.tif" "Place2dTexture" rock_dictionary_all
                     eq_refl eq_refl _ _ _ _ _) _).
  - vm_compute. discriminate.
  - discriminate.
  - discriminate.
  - discriminate.
  - vm_compute. reflexivity.
  - intros ->. vm_compute. reflexivity.
Defined.

Lemma main_asks_once_witness :
  loader_events
    (log (main (fun p => if String.eqb p "names.json"
                         then Some (JsonDocument rock_dictionary_all) else None)
            (only "Rock_Roughness.png") None [Select (Some "names.json")]
            ["aiStandardSurface1"] ("aiStandardSurface1" :: [])
            (Some "Rock_BaseColor.tif") "Place2dTexture"))
  = dialogs
      (load_texture_names
         (fun p => if String.eqb p "names.json" then Some (JsonDocument rock_dictionary_all) else None)
         None [Select (Some "names.json")]).
Proof.
  refine (proj1 (main_asks_once
                   (fun p => if String.eqb p "names.json"
                             then Some (JsonDocument rock_dictionary_all) else None)
                   (only "Rock_Roughness.png") None [Select (Some "names.json")]
                   ["aiStandardSurface1"] "aiStandardSurface1" []
                   "Rock_BaseColor.tif" "Place2dTexture" rock_dictionary_all
                   eq_refl eq_refl _ _ _ _ _)).
  - vm_compute. discriminate.
  - discriminate.
  - discriminate.
  - discriminate.
  - vm_compute. reflexivity.
Defined.

(** ** More on the cut of the LOD suffix and on the candidates *)

Lemma sub_lod_skip_line s :
  Py.contains (String Py.newline "") s = false -> Re.sub_lod_from true s = "".
Proof.
  induction s as [|c s IH]; [done|]. rewrite contains_char. cbn [Re.sub_lod_from].
  destruct (Ascii.eqb_spec c Py.newline) as [->|Hne].
  - by rewrite Ascii.eqb_refl.
  - intros H. apply IH. by destruct (Ascii.eqb Py.newline c).
Qed.

Lemma startswith_append_l t a b :
  Py.startswith t a = true -> Py.startswith t (a +:+ b) = true.
Proof.
  rewrite !startswith_spec. intros [r ->]. exists (r +:+ b). by rewrite append_assoc.
Qed.

Lemma startswith_append_long t a b :
  (String.length t <= String.length a)%nat ->
  Py.startswith t (a +:+ b) = Py.startswith t a.
Proof.
  revert a. induction t as [|x t IH]; intros [|y a] H; try done.
  - simpl in H. lia.
  - rewrite append_cons. cbn [Py.startswith]. destruct (Ascii.eqb x y); [|done].
    apply IH. simpl in H. lia.
Qed.

Lemma sub_lod_first_occurrence pre rest :
  Py.contains "_LOD" (pre +:+ "_LO") = false ->
  Py.contains (String Py.newline "") rest = false ->
  Re.sub_lod (pre +:+ "_LOD" +:+ rest) = pre.
Proof.
  intros Hpre Hrest. unfold Re.sub_lod.
  induction pre as [|c pre IH].
  - change ("" +:+ "_LOD" +:+ rest) with (String "_" ("LOD" +:+ rest)).
    cbn [Re.sub_lod_from]. 
    assert (E : Py.startswith "_LOD" (String "_" ("LOD" +:+ rest)) = true)
      by (apply startswith_spec; by exists rest).
    rewrite E. apply sub_lod_skip_line.
    change ("LOD" +:+ rest) with (String "L" (String "O" (String "D" rest))).
    by rewrite !contains_char.
  - rewrite append_cons in Hpre. rewrite append_cons.
    rewrite contains_unfold in Hpre.
    destruct (Py.startswith "_LOD" (String c (pre +:+ "_LO"))) eqn:E; [done|].
    cbn [Re.sub_lod_from].
    destruct (Py.startswith "_LOD" (String c (pre +:+ "_LOD" +:+ rest))) eqn:E'.
    + exfalso.
      assert (Hlong : Py.startswith "_LOD" (String c (pre +:+ "_LO") +:+ "D" +:+ rest)
                      = Py.startswith "_LOD" (String c (pre +:+ "_LO"))).
      { apply startswith_append_long. cbn [String.length].
        rewrite append_length. cbn [String.length]. lia. }
      rewrite append_cons, append_assoc in Hlong.
      change ("_LO" +:+ "D" +:+ rest) with ("_LOD" +:+ rest) in Hlong. congruence.
    + by rewrite IH.
Qed.

(** X26. The cut does not only take away a trailing LOD suffix: everything
    from the first [_LOD] of the stem up to the extension goes (within one
    line), also a term that stands after it. *)
Theorem strip_lod_cuts_from_first :
  forall image_path pre rest ext,
    OsPath.splitext image_path = (pre +:+ "_LOD" +:+ rest, ext) ->
    Py.contains "_LOD" (pre +:+ "_LO") = false ->
    Py.contains (String Py.newline "") rest = false ->
    strip_lod image_path = pre +:+ ext.
Proof.
  intros p pre rest ext Hs Hpre Hrest. unfold strip_lod. rewrite Hs.
  by rewrite sub_lod_first_occurrence.
Qed.

Lemma strip_lod_cuts_from_first_witness :
  OsPath.splitext "Rock_LOD1_BaseColor.png"
  = ("Rock" +:+ "_LOD" +:+ "1_BaseColor", ".png")
  /\ strip_lod "Rock_LOD1_BaseColor.png" = "Rock" +:+ ".png".
Proof.
  assert (H : OsPath.splitext "Rock_LOD1_BaseColor.png"
              = ("Rock" +:+ "_LOD" +:+ "1_BaseColor", ".png"))
    by (vm_compute; reflexivity).
  split; [exact H|].
  exact (strip_lod_cuts_from_first "Rock_LOD1_BaseColor.png" "Rock" "1_BaseColor"
           ".png" H eq_refl eq_refl).
Defined.

Lemma base_extensions_only ch pe ext :
  In ch [roughness; metallic; displacement; normal; opacity] ->
  In ext (image_extensions ch pe) -> In ext base_extensions.
Proof.
  intros [<-|[<-|[<-|[<-|[<-|[]]]]]]; try done.
  cbn [image_extensions displacement].
  by rewrite (displacement_extensions_In pe (Some true)).
Qed.

(** X27. The five channel functions only ever ask for, and so only ever
    link, paths that end in [.exr], [.jpg], [.png], [.tif] or [.tiff]: a
    channel map with another extension is not found. *)
Theorem only_five_extensions :
  forall fs ch json_data image_path material place2d udim p,
    In ch [roughness; metallic; displacement; normal; opacity] ->
    In p (exists_calls
            (events (link_channel fs ch json_data image_path material place2d udim)))
    \/ linked_path
         (events (link_channel fs ch json_data image_path material place2d udim))
       = Some p ->
    exists stem ext,
      p = stem +:+ ext /\ In ext [".exr"; ".jpg"; ".png"; ".tif"; ".tiff"].
Proof.
  intros fs ch json_data image_path material place2d udim p Hch Hp.
  assert (Hin : In p (call_candidates ch json_data image_path material)).
  { destruct (link_channel_calls fs ch json_data image_path material place2d udim)
      as (Hc & Hl & _).
    destruct Hp as [Hp|Hp].
    - rewrite Hc in Hp. apply list_elem_of_In.
      eapply elem_of_prefix; [by apply list_elem_of_In|]. apply probed_prefix.
    - rewrite Hl in Hp. by destruct (find_some _ _ Hp). }
  clear Hp. unfold call_candidates in Hin.
  destruct (negb (truthy_str image_path) || negb (truthy_str material)); [done|].
  destruct json_data as [td|]; [|done].
  destruct (negb (truthy_list (names_of td "BaseColor"))
            || negb (truthy_list (names_of td (key ch)))); [done|].
  unfold all_candidates in Hin. apply in_flat_map in Hin as (term & _ & Hin).
  unfold term_candidates in Hin.
  destruct (Re.search_ic term (strip_lod image_path)) as [m|]; [|done].
  apply in_flat_map in Hin as (r & _ & Hin).
  apply in_flat_map in Hin as (lod & _ & Hin).
  apply in_map_iff in Hin as (ext & <- & Hext).
  eexists _, ext. split; [done|]. by eapply base_extensions_only.
Qed.

Lemma only_five_extensions_witness :
  exists stem ext,
    "Rock_Roughness.png" = stem +:+ ext
    /\ In ext [".exr"; ".jpg"; ".png"; ".tif"; ".tiff"].
Proof.
  apply (only_five_extensions (only "Rock_Roughness.png") roughness
           (Some rock_dictionary) "Rock_BaseColor.tif" "aiStandardSurface1"
           "Place2dTexture" None "Rock_Roughness.png").
  - left. reflexivity.
  - right. vm_compute. reflexivity.
Defined.

(** ** The node editor menu *)

Lemma addpmamenuitems_NoDup node_type items :
  NoDup items -> NoDup (addpmamenuitems node_type items).2.
Proof.
  intros H. unfold addpmamenuitems.
  destruct (String.eqb node_type "aiStandardSurface"); [|done]. cbn [snd].
  destruct (existsb (String.eqb "LinkMaterial") items) eqn:E; [done|]. cbn [negb].
  apply NoDup_app. split; [done|]. split; [|apply NoDup_singleton].
  intros x Hx Hx'. apply list_elem_of_singleton in Hx' as ->.
  assert (existsb (String.eqb "LinkMaterial") items = true); [|congruence].
  apply existsb_exists. exists "LinkMaterial".
  split; [by apply list_elem_of_In|apply String.eqb_refl].
Qed.

(** X28. However often the menu callback runs, and on whatever nodes, the
    item [LinkMaterial] is made at most once: a menu without repeated items
    keeps this, it keeps the items it had, and it holds [LinkMaterial] once
    the callback has seen an aiStandardSurface node. *)
Theorem link_item_is_made_once :
  forall node_types items,
    NoDup items ->
    NoDup (menu_after node_types items)
    /\ items `prefix_of` menu_after node_types items
    /\ (In "aiStandardSurface" node_types ->
        In "LinkMaterial" (menu_after node_types items)).
Proof.
  unfold menu_after.
  induction node_types as [|ty tys IH]; intros items Hnd; cbn [fold_left].
  - split; [done|]. split; [done|]. by intros [].
  - destruct (IH _ (addpmamenuitems_NoDup ty items Hnd)) as (IH1 & IH2 & IH3).
    assert (Hpre : items `prefix_of` (addpmamenuitems ty items).2).
    { unfold addpmamenuitems. destruct (String.eqb ty "aiStandardSurface"); [|done].
      cbn [snd]. destruct (negb _); [by apply prefix_app_r|done]. }
    split; [done|]. split; [by etransitivity|].
    intros [Hty|Hin]; [|by apply IH3]. clear IH IH1 IH3. subst ty.
    apply list_elem_of_In. eapply elem_of_prefix; [|apply IH2].
    apply list_elem_of_In. unfold addpmamenuitems.
    rewrite String.eqb_refl. cbn [snd].
    destruct (existsb (String.eqb "LinkMaterial") items) eqn:E; cbn [negb].
    + apply existsb_exists in E as (x & Hx & Ex). by apply String.eqb_eq in Ex as <-.
    + apply in_app_iff. right. by left.
Qed.

Lemma link_item_is_made_once_witness :
  NoDup ["LinkMaterial"]
  /\ NoDup (menu_after ["aiStandardSurface"; "lambert"; "aiStandardSurface"]
              ["LinkMaterial"]).
Proof.
  assert (H : NoDup ["LinkMaterial"]) by apply NoDup_singleton.
  split; [exact H|].
  exact (proj1 (link_item_is_made_once
                  ["aiStandardSurface"; "lambert"; "aiStandardSurface"]
                  ["LinkMaterial"] H)).
Defined.
